(** * The OSDF client (osdf.js): response decoding and the paginated
      query aggregation.

    A shallow embedding of the parts of [osdf.js] that decide how an
    HTTP response becomes the [(err, data)] of a callback or the
    settlement of a promise, and of the two helpers behind [query_all]
    and [oql_query_all] that fetch a query page by page. *)

From Stdlib Require Import ZArith Lia Ascii String.
From stdpp Require Import base strings list gmap pretty.

Local Open Scope string_scope.
Local Open Scope list_scope.
Local Open Scope Z_scope.
Local Set Warnings "-register-all".

(** ** JavaScript values

    The values that travel through the client: what a callback receives
    as [err], the items of a result list, the object handed back by the
    aggregation.  Numbers are the integers the client handles (status
    codes, lengths, page numbers); an object is its list of own
    properties in the order they were written.  An exception that is
    thrown is an [Error] object, known here by its kind. *)

(** Exceptions the embedded code can raise. *)
Inductive Exn : Type :=
| TypeError
| SyntaxError.

Inductive JSValue : Type :=
| JUndefined
| JNull
| JBool (b : bool)
| JNum (n : Z)
| JStr (s : string)
| JArr (items : list JSValue)
| JObj (fields : list (string * JSValue))
| JError (e : Exn).

(** [if (v)]: the truthiness test of the language. *)
Definition truthy (v : JSValue) : bool :=
  match v with
  | JUndefined | JNull => false
  | JBool b => b
  | JNum n => negb (n =? 0)
  | JStr s => negb (String.eqb s "")
  | JArr _ | JObj _ | JError _ => true
  end.

(** [o.hasOwnProperty(k)] and [o[k]] on an object literal. *)
Fixpoint own_property (k : string) (fields : list (string * JSValue)) : option JSValue :=
  match fields with
  | [] => None
  | (k', v) :: rest =>
      match own_property k rest with
      | Some later => Some later
      | None => if String.eqb k k' then Some v else None
      end
  end.

Definition hasOwnProperty (o : JSValue) (k : string) : bool :=
  match o with
  | JObj fields => bool_decide (is_Some (own_property k fields))
  | _ => false
  end.

(** A computation either returns or throws; nothing in [osdf.js]
    catches an exception, so a throw inside an event handler leaves the
    caller without any completion, and a throw before the operation
    returns reaches the caller of the operation. *)
Inductive Exc (A : Type) : Type :=
| Normal (a : A)
| Throw (e : Exn).
Arguments Normal {A} a.
Arguments Throw {A} e.

(** The two completion conventions: a callback invoked with
    [(err, data)], or a promise that is resolved or rejected. *)
Inductive Completion (D : Type) : Type :=
| Invoked (err : JSValue) (data : D).
Arguments Invoked {D} err data.

Inductive Settlement (D : Type) : Type :=
| Resolved (value : D)
| Rejected (reason : JSValue).
Arguments Resolved {D} value.
Arguments Rejected {D} reason.

(** ** HTTP responses *)

(** The response object as the handlers read it: [statusCode], the
    [headers] object (header names in lower case), [statusMessage] when
    the response has it as an own property, and the chunks that the
    ['data'] events deliver before ['end']. *)
Record Response : Type := {
  statusCode : Z;
  headers : gmap string string;
  statusMessage : option string;
  chunks : list string
}.

(** What [http.request] ends with: an ['error'] event on the request, or
    a response that reached its ['end'] event. *)
Inductive HttpEvent : Type :=
| ErrorEvent (err : JSValue)
| ResponseEvent (response : Response).

(** What becomes of [http.request(options, cb)]: the call itself
    throws and no request is made (while [http] is [null], before
    [setup]; or when the path has a character that must be escaped), or
    the request is made and ends with an event. *)
Inductive Requested : Type :=
| Refused (e : Exn)
| Made (ev : HttpEvent).

(** [var body = ''; response.on('data', chunk => body = body + chunk)] *)
Definition body_of (response : Response) : string :=
  fold_left (fun body chunk => body +:+ chunk) (chunks response) "".

(** The error branch shared by every handler of the file:
<<
  if (response['headers'].hasOwnProperty('x-osdf-error')) { .. headers['x-osdf-error'] }
  else if (response.hasOwnProperty('statusMessage'))      { .. response['statusMessage'] }
  else                                                    { .. response['statusCode'] }
>> *)
Definition error_value (response : Response) : JSValue :=
  match headers response !! "x-osdf-error" with
  | Some message => JStr message
  | None =>
      match statusMessage response with
      | Some message => JStr message
      | None => JNum (statusCode response)
      end
  end.

Section Decoding.
(** [JSON.parse] belongs to the runtime: it is a parameter.  [T] is the
    type of the documents it yields and [None] stands for the
    [SyntaxError] it throws on a text that is not JSON. *)
Context {T : Type}.
Variable JSON_parse : string -> option T.

(** [make_regular_cb(callback)], applied to a response at ['end']. *)
Definition make_regular_cb (response : Response) : Exc (Completion (option T)) :=
  if (200 <=? statusCode response) && (statusCode response <? 300) then
    match JSON_parse (body_of response) with
    | Some parsed => Normal (Invoked JNull (Some parsed))
    | None => Throw SyntaxError
    end
  else Normal (Invoked (error_value response) None).

(** [make_promise_cb(resolve, reject)], applied to a response at ['end']. *)
Definition make_promise_cb (response : Response) : Exc (Settlement T) :=
  if (200 <=? statusCode response) && (statusCode response <? 300) then
    match JSON_parse (body_of response) with
    | Some parsed => Normal (Resolved parsed)
    | None => Throw SyntaxError
    end
  else Normal (Rejected (error_value response)).

(** [get_helper(options, callback)] and [query_helper(options, query,
    callback)] install the same handlers; they differ in what is
    written to the request.  Here they are given the event the request
    ends with.  The [_callback] version is the branch taken when
    [callback] is a function, the [_promise] version the other one. *)
Definition get_helper_callback (ev : HttpEvent) : Exc (Completion (option T)) :=
  match ev with
  | ErrorEvent err => Normal (Invoked err None)
  | ResponseEvent response => make_regular_cb response
  end.

Definition get_helper_promise (ev : HttpEvent) : Exc (Settlement T) :=
  match ev with
  | ErrorEvent err => Normal (Rejected err)
  | ResponseEvent response => make_promise_cb response
  end.

Definition query_helper_callback (ev : HttpEvent) : Exc (Completion (option T)) :=
  match ev with
  | ErrorEvent err => Normal (Invoked err None)
  | ResponseEvent response => make_regular_cb response
  end.

Definition query_helper_promise (ev : HttpEvent) : Exc (Settlement T) :=
  match ev with
  | ErrorEvent err => Normal (Rejected err)
  | ResponseEvent response => make_promise_cb response
  end.
End Decoding.

(** ** JSON texts

    [JSON.parse] as the language defines it (ECMA-404): a recogniser of
    JSON texts that builds the syntax tree.  Numbers and strings are
    kept as the literals of the text, members of an object in the order
    of the text.  A text that is not JSON has no tree: [JSON.parse]
    throws a [SyntaxError] there. *)
Module JSON.

Inductive value : Type :=
| j_null
| j_true
| j_false
| j_number (literal : string)
| j_string (literal : string)
| j_array (elements : list value)
| j_object (members : list (string * value)).

Inductive token : Type :=
| t_begin_array | t_end_array | t_begin_object | t_end_object
| t_colon | t_comma
| t_scalar (v : value).

Definition code (c : ascii) : N := Ascii.N_of_ascii c.
Definition is_code (c : ascii) (n : N) : bool := N.eqb (code c) n.
Definition between (c : ascii) (lo hi : N) : bool :=
  (N.leb lo (code c) && N.leb (code c) hi)%bool.

Definition is_ws (c : ascii) : bool := (is_code c 32 || is_code c 9 || is_code c 10 || is_code c 13)%bool.
Definition is_digit (c : ascii) : bool := between c 48 57.
Definition is_onenine (c : ascii) : bool := between c 49 57.
Definition is_hex (c : ascii) : bool :=
  (is_digit c || between c 65 70 || between c 97 102)%bool.
(** the characters that may follow a backslash, [u] apart:
    quote, backslash, slash, b, f, n, r, t *)
Definition is_escape (c : ascii) : bool :=
  (is_code c 34 || is_code c 92 || is_code c 47 || is_code c 98 || is_code c 102 || is_code c 110 || is_code c 114 || is_code c 116)%bool.

Definition snoc (s : string) (c : ascii) : string := s +:+ String c "".

(** Where the scanner is inside a number literal. *)
Inductive in_number : Type :=
| n_minus | n_zero | n_int | n_point | n_frac | n_e | n_sign | n_exp.

Definition number_done (n : in_number) : bool :=
  match n with
  | n_zero | n_int | n_frac | n_exp => true
  | n_minus | n_point | n_e | n_sign => false
  end.

Definition is_e (c : ascii) : bool := (is_code c 101 || is_code c 69)%bool.

Definition number_step (n : in_number) (c : ascii) : option in_number :=
  match n with
  | n_minus => if is_code c 48 then Some n_zero else if is_onenine c then Some n_int else None
  | n_zero => if is_code c 46 then Some n_point else if is_e c then Some n_e else None
  | n_int =>
      if is_digit c then Some n_int
      else if is_code c 46 then Some n_point else if is_e c then Some n_e else None
  | n_point => if is_digit c then Some n_frac else None
  | n_frac => if is_digit c then Some n_frac else if is_e c then Some n_e else None
  | n_e => if (is_code c 43 || is_code c 45)%bool then Some n_sign else if is_digit c then Some n_exp else None
  | n_sign => if is_digit c then Some n_exp else None
  | n_exp => if is_digit c then Some n_exp else None
  end.

(** Where the scanner is inside a string literal. *)
Inductive in_string : Type :=
| s_plain
| s_backslash
| s_hex (expected : nat).

Inductive scanning : Type :=
| idle
| in_str (literal : string) (at_ : in_string)
| in_num (literal : string) (at_ : in_number)
| in_word (v : value) (expected : string).

(** A character met between two tokens: the token it makes, if it makes
    one by itself, and the state it leaves the scanner in. *)
Definition start (c : ascii) : option (list token * scanning) :=
  if is_ws c then Some ([], idle)
  else if is_code c 91 then Some ([t_begin_array], idle)
  else if is_code c 93 then Some ([t_end_array], idle)
  else if is_code c 123 then Some ([t_begin_object], idle)
  else if is_code c 125 then Some ([t_end_object], idle)
  else if is_code c 58 then Some ([t_colon], idle)
  else if is_code c 44 then Some ([t_comma], idle)
  else if is_code c 34 then Some ([], in_str "" s_plain)
  else if is_code c 45 then Some ([], in_num (String c "") n_minus)
  else if is_code c 48 then Some ([], in_num (String c "") n_zero)
  else if is_onenine c then Some ([], in_num (String c "") n_int)
  else if is_code c 116 then Some ([], in_word j_true "rue")
  else if is_code c 102 then Some ([], in_word j_false "alse")
  else if is_code c 110 then Some ([], in_word j_null "ull")
  else None.

Fixpoint scan (st : scanning) (text : string) : option (list token) :=
  match text with
  | EmptyString =>
      match st with
      | idle => Some []
      | in_num literal n => if number_done n then Some [t_scalar (j_number literal)] else None
      | in_str _ _ | in_word _ _ => None
      end
  | String c rest =>
      match st with
      | idle =>
          match start c with
          | Some (toks, st') => (toks ++.) <$> scan st' rest
          | None => None
          end
      | in_num literal n =>
          match number_step n c with
          | Some n' => scan (in_num (snoc literal c) n') rest
          | None =>
              if number_done n then
                match start c with
                | Some (toks, st') =>
                    (fun more => t_scalar (j_number literal) :: toks ++ more) <$> scan st' rest
                | None => None
                end
              else None
          end
      | in_str literal s_plain =>
          if is_code c 34 then (t_scalar (j_string literal) ::.) <$> scan idle rest
          else if is_code c 92 then scan (in_str (snoc literal c) s_backslash) rest
          else if N.ltb (code c) 32 then None
          else scan (in_str (snoc literal c) s_plain) rest
      | in_str literal s_backslash =>
          if is_escape c then scan (in_str (snoc literal c) s_plain) rest
          else if is_code c 117 then scan (in_str (snoc literal c) (s_hex 4)) rest
          else None
      | in_str literal (s_hex k) =>
          if is_hex c then
            scan (in_str (snoc literal c)
                    (match k with
                     | S (S k') => s_hex (S k')
                     | _ => s_plain
                     end)) rest
          else None
      | in_word v expected =>
          match expected with
          | String e more =>
              if Ascii.eqb c e then
                match more with
                | EmptyString => (t_scalar v ::.) <$> scan idle rest
                | _ => scan (in_word v more) rest
                end
              else None
          | EmptyString => None
          end
      end
  end.

(** The containers that are open, innermost first: an array with the
    elements read so far, an object with its members and the key that
    waits for its value. *)
Inductive frame : Type :=
| f_array (elements : list value)
| f_object (members : list (string * value)) (key : option string).

Inductive expecting : Type :=
| e_value            (* a value *)
| e_value_or_end     (* after [[]: a value or [[]] *)
| e_key_or_end       (* after [{]: a key or [}] *)
| e_key              (* after a comma in an object *)
| e_colon
| e_comma_or_end     (* after a value inside a container *)
| e_nothing (v : value).

(** A value is complete: it goes to the innermost open container. *)
Definition complete (v : value) (stack : list frame) : option (list frame * expecting) :=
  match stack with
  | [] => Some ([], e_nothing v)
  | f_array elements :: outer => Some (f_array (elements ++ [v]) :: outer, e_comma_or_end)
  | f_object members (Some key) :: outer =>
      Some (f_object (members ++ [(key, v)]) None :: outer, e_comma_or_end)
  | f_object _ None :: _ => None
  end.

Definition open_value (t : token) (stack : list frame) : option (list frame * expecting) :=
  match t with
  | t_scalar v => complete v stack
  | t_begin_array => Some (f_array [] :: stack, e_value_or_end)
  | t_begin_object => Some (f_object [] None :: stack, e_key_or_end)
  | _ => None
  end.

Definition close (t : token) (stack : list frame) : option (list frame * expecting) :=
  match t, stack with
  | t_end_array, f_array elements :: outer => complete (j_array elements) outer
  | t_end_object, f_object members None :: outer => complete (j_object members) outer
  | _, _ => None
  end.

Definition key (t : token) (stack : list frame) : option (list frame * expecting) :=
  match t, stack with
  | t_scalar (j_string k), f_object members None :: outer =>
      Some (f_object members (Some k) :: outer, e_colon)
  | _, _ => None
  end.

Definition step (t : token) (stack : list frame) (e : expecting) : option (list frame * expecting) :=
  match e with
  | e_value => open_value t stack
  | e_value_or_end =>
      match t with
      | t_end_array => close t stack
      | _ => open_value t stack
      end
  | e_key_or_end =>
      match t with
      | t_end_object => close t stack
      | _ => key t stack
      end
  | e_key => key t stack
  | e_colon =>
      match t with
      | t_colon => Some (stack, e_value)
      | _ => None
      end
  | e_comma_or_end =>
      match t, stack with
      | t_comma, f_array _ :: _ => Some (stack, e_value)
      | t_comma, f_object _ _ :: _ => Some (stack, e_key)
      | _, _ => close t stack
      end
  | e_nothing _ => None
  end.

Fixpoint build (toks : list token) (stack : list frame) (e : expecting) : option value :=
  match toks with
  | [] =>
      match e with
      | e_nothing v => Some v
      | _ => None
      end
  | t :: toks' =>
      match step t stack e with
      | Some (stack', e') => build toks' stack' e'
      | None => None
      end
  end.

(** [JSON.parse(text)]; [None] is the [SyntaxError]. *)
Definition parse (text : string) : option value :=
  match scan idle text with
  | Some toks => build toks [] e_value
  | None => None
  end.

End JSON.

(** ** insert_node *)

(** [s.split(sep)] for a separator of one character: the pieces of [s]
    between the occurrences of [sep], never an empty array. *)
Fixpoint split (sep : ascii) (s : string) : list string :=
  match s with
  | EmptyString => [EmptyString]
  | String c rest =>
      if Ascii.eqb c sep then EmptyString :: split sep rest
      else
        match split sep rest with
        | piece :: pieces => String c piece :: pieces
        | [] => [String c EmptyString]
        end
  end.

(** [a.pop()]: the last element, [undefined] on an empty array. *)
Definition pop (a : list string) : JSValue :=
  match last a with
  | Some s => JStr s
  | None => JUndefined
  end.

(** The ['end'] handler of [osdf.insert_node] with a callback:
<<
  if (response['statusCode'] === 201) {
      var location = response['headers']['location'];
      var node_id = location.split('/').pop();
      callback(null, node_id);
  } else { .. callback(<error value>, null); }
>>
    and [request.on('error', err => callback(err, null))].  Without a
    [location] header [location] is [undefined] and [location.split]
    throws. *)
Definition insert_node_callback (ev : HttpEvent) : Exc (Completion JSValue) :=
  match ev with
  | ErrorEvent err => Normal (Invoked err JNull)
  | ResponseEvent response =>
      if statusCode response =? 201 then
        match headers response !! "location" with
        | Some location => Normal (Invoked JNull (pop (split "/" location)))
        | None => Throw TypeError
        end
      else Normal (Invoked (error_value response) JNull)
  end.

(** The same handler in the branch that returns a promise. *)
Definition insert_node_promise (ev : HttpEvent) : Exc (Settlement JSValue) :=
  match ev with
  | ErrorEvent err => Normal (Rejected err)
  | ResponseEvent response =>
      if statusCode response =? 201 then
        match headers response !! "location" with
        | Some location => Normal (Resolved (pop (split "/" location)))
        | None => Throw TypeError
        end
      else Normal (Rejected (error_value response))
  end.

(** ** Queries and pages *)

(** A query is an ElasticSearch query object or an OQL string
    ([@param {Object|string} query]). *)
Inductive Query : Type :=
| ES (es_query : list (string * JSValue))
| OQL (oql_query : string).

(** [_.isString(query)] *)
Definition isString (query : Query) : bool :=
  match query with
  | OQL _ => true
  | ES _ => false
  end.

(** One page of search results as the server sends it and as the tests
    of [query_page] require it: three numbers and the array [results]. *)
Record Page : Type := {
  results : list JSValue;
  result_count : Z;
  search_result_total : Z;
  page_index : Z
}.

(** What a single-page operation does when it is called with a
    callback.  It throws before it returns, as the operations of the
    client do when [http.request] throws ([Throws]).  Or it returns and
    completes later, from an event of its request: it invokes the
    callback with [(err, page_result)], or an exception escapes from its
    own handler ([Raises]); an exception thrown at that time, while the
    callback runs or before, is caught by nobody, whichever helper
    installed the callback.  Every call that returns is taken to
    complete.

    The helpers read nothing of [page_result] but its [results].  It is
    a page, or ([None]) a value on which reading
    [page_result['results'].length] throws a TypeError: [null], as with
    every error, [undefined], or a value that has no [results], such as
    [{}].  A [results] that is there is taken to be an array, as the
    server sends it and the tests require it. *)
Inductive Reply : Type :=
| CallsBack (err : JSValue) (page_result : option Page)
| Raises (e : Exn)
| Throws (e : Exn).

(** The variables the two helpers close over.  [page] is a number that
    starts at 1 and only ever grows by one: an integer. *)
Record Vars : Type := {
  page : Z;
  has_next_page : bool;
  all_results : list JSValue
}.

(** What the handler of a page passes to the [cb] of the loop:
    [cb(err)] or [cb(null, all_results)]. *)
Inductive Next : Type :=
| next (err : JSValue) (results : option (list JSValue)).

(** The object the aggregation hands back:
<<
  var final = { 'search_result_total': all_results.length,
                'result_count': all_results.length,
                'results': all_results };
>> *)
Definition final (all_results : list JSValue) : JSValue :=
  JObj [("search_result_total", JNum (Z.of_nat (length all_results)));
        ("result_count", JNum (Z.of_nat (length all_results)));
        ("results", JArr all_results)].

(** The handler both helpers pass to the single-page operation:
<<
  function(err, page_result) {
      if (err) { cb(err); }
      else {
          page++;
          if (page_result['results'].length > 0) {
              all_results = all_results.concat(page_result['results']);
          } else { has_next_page = false; }
          cb(null, all_results);
      }
  }
>>
    On a value that is not a page ([null], [{}], ...) reading
    [page_result['results'].length] throws a TypeError, after
    [page++]. *)
Definition on_page (v : Vars) (err : JSValue) (page_result : option Page) : Vars * Exc Next :=
  if truthy err then (v, Normal (next err None))
  else
    let v1 := {| page := page v + 1;
                 has_next_page := has_next_page v;
                 all_results := all_results v |} in
    match page_result with
    | None => (v1, Throw TypeError)
    | Some p =>
        let v2 :=
          if 0 <? Z.of_nat (length (results p)) then
            {| page := page v1;
               has_next_page := has_next_page v1;
               all_results := all_results v1 ++ results p |}
          else
            {| page := page v1;
               has_next_page := false;
               all_results := all_results v1 |} in
        (v2, Normal (next JNull (Some (all_results v2))))
    end.

(** ** async.doWhilst

    [async.doWhilst(iteratee, test, callback)] of the async library, with
    the calling convention the source relies on (the test receives the
    results and a completion callback): the iteratee runs; an [err]
    passed to its [cb] ends the loop with [callback(err)]; otherwise the
    test runs and the loop goes on while it answers true, and ends with
    [callback(null, results)] when it does not.  The library catches no
    exception.  (The handler of the helpers passes to [cb] either a
    truthy [err] or [null]; what the library does with other values
    does not arise.)  [fuel] bounds the number of rounds the model
    follows; the outcome is [None] when the loop is still running after
    them. *)
Section DoWhilst.
Context {S R : Type}.
Variable iteratee : S -> S * Exc Next.
Variable test : S -> option (list JSValue) -> bool.
Variable callback : S -> JSValue -> option (list JSValue) -> R.

Fixpoint doWhilst (fuel : nat) (s : S) : S * option (Exc R) :=
  match fuel with
  | O => (s, None)
  | Datatypes.S fuel' =>
      match iteratee s with
      | (s', Throw e) => (s', Some (Throw e))
      | (s', Normal (next err results)) =>
          if truthy err then (s', Some (Normal (callback s' err None)))
          else if test s' results then doWhilst fuel' s'
               else (s', Some (Normal (callback s' JNull results)))
      end
  end.
End DoWhilst.

(** ** The two aggregation helpers *)

Section Aggregation.
(** [W] is the state of whatever the single-page operations talk to (the
    server, the network); an operation reads it and leaves a new one. *)
Context {W : Type}.

(** [func(query, namespace, page, cb)] *)
Definition FetchOp : Type := Query -> string -> Z -> W -> Reply * W.

(** The [osdf] object the helpers are given: they use its two
    single-page operations. *)
Record Osdf : Type := {
  oql_query_page : FetchOp;
  query_page : FetchOp
}.

(** A run of a helper: its variables, the state of the world, and the
    calls made to [func] so far, oldest first, each with the page number
    passed and the reply. *)
Record Run : Type := {
  vars : Vars;
  world : W;
  fetched : list (Z * Reply)
}.

Definition start (w : W) : Run :=
  {| vars := {| page := 1; has_next_page := true; all_results := [] |};
     world := w;
     fetched := [] |}.

(**
<<
  var func;
  if (_.isString(query)) { func = osdf.oql_query_page.bind(osdf); }
  else                   { func = osdf.query_page.bind(osdf); }
>> *)
Definition func (osdf : Osdf) (query : Query) : FetchOp :=
  if isString query then oql_query_page osdf else query_page osdf.

(** [make_query_all_callback_helper()(query, namespace, osdf, callback)] *)
Definition make_query_all_callback_helper
    (query : Query) (namespace : string) (osdf : Osdf)
    (fuel : nat) (w : W) : Run * option (Exc (Completion JSValue)) :=
  let func := func osdf query in
  doWhilst
    (fun s =>
       let '(reply, w') := func query namespace (page (vars s)) (world s) in
       let log := fetched s ++ [(page (vars s), reply)] in
       match reply with
       | Raises e | Throws e =>
           ({| vars := vars s; world := w'; fetched := log |}, Throw e)
       | CallsBack err page_result =>
           let '(v, cb) := on_page (vars s) err page_result in
           ({| vars := v; world := w'; fetched := log |}, cb)
       end)
    (fun s results => has_next_page (vars s))
    (fun s err results =>
       if truthy err then Invoked err JNull
       else Invoked JNull (final (all_results (vars s))))
    fuel (start w).

(** [new Promise(executor)]: an exception thrown while the executor runs
    rejects the promise with it.  The executor of the promise helper
    runs [async.doWhilst] up to the return of the first call of [func];
    whatever follows is run by the handlers of later events, where an
    exception is caught by nobody.  [first] is the reply to that first
    call and [run] what the loop does. *)
Definition executor (first : Reply) (run : Run * option (Exc (Settlement JSValue)))
    : Run * option (Exc (Settlement JSValue)) :=
  match first, snd run with
  | Throws e, Some _ => (fst run, Some (Normal (Rejected (JError e))))
  | _, _ => run
  end.

(** [make_query_all_promise_helper()(query, namespace, osdf)]: the same
    loop, inside [new Promise(function(resolve, reject) { .. })]. *)
Definition make_query_all_promise_helper
    (query : Query) (namespace : string) (osdf : Osdf)
    (fuel : nat) (w : W) : Run * option (Exc (Settlement JSValue)) :=
  let func := func osdf query in
  executor (fst (func query namespace 1 w))
    (doWhilst
       (fun s =>
          let '(reply, w') := func query namespace (page (vars s)) (world s) in
          let log := fetched s ++ [(page (vars s), reply)] in
          match reply with
          | Raises e | Throws e =>
              ({| vars := vars s; world := w'; fetched := log |}, Throw e)
          | CallsBack err page_result =>
              let '(v, cb) := on_page (vars s) err page_result in
              ({| vars := v; world := w'; fetched := log |}, cb)
          end)
       (fun s results => has_next_page (vars s))
       (fun s err results =>
          if truthy err then Rejected err
          else Resolved (final (all_results (vars s))))
       fuel (start w)).

End Aggregation.
Arguments FetchOp W : clear implicits.
Arguments Osdf W : clear implicits.
Arguments Run W : clear implicits.

(** ** The operations of the client

    Every operation builds the [options] of one HTTP request and hands
    them to a helper.  The operations whose helper reads the whole body
    of the response and parses it are listed here: the GET operations
    (through [get_helper]) and the four query operations (through
    [query_helper]). *)
Module Api.

Inductive Operation : Type :=
| get_aux_schema (namespace aux_schema_name : string)
| get_aux_schemas (namespace : string)
| get_namespace (namespace : string)
| get_namespaces
| get_node (node_id : string)
| get_node_by_version (node_id : string) (version : Z)
| get_node_in_links (node_id : string)
| get_node_out_links (node_id : string)
| get_schema (namespace schema_name : string)
| get_schemas (namespace : string)
| info
| oql_query (oql_query : Query) (namespace : string)
| oql_query_page (oql_query : Query) (namespace : string) (page : Z)
| query (es_query : Query) (namespace : string)
| query_page (es_query : Query) (namespace : string) (page : Z).

(** [path:] of the options; a number is appended in decimal. *)
Definition path (op : Operation) : string :=
  match op with
  | get_aux_schema namespace aux_schema_name =>
      "/namespaces/" +:+ namespace +:+ "/schemas/aux/" +:+ aux_schema_name
  | get_aux_schemas namespace => "/namespaces/" +:+ namespace +:+ "/schemas/aux/"
  | get_namespace namespace => "/namespaces/" +:+ namespace
  | get_namespaces => "/namespaces"
  | get_node node_id => "/nodes/" +:+ node_id
  | get_node_by_version node_id version => "/nodes/" +:+ node_id +:+ "/ver/" +:+ pretty version
  | get_node_in_links node_id => "/nodes/" +:+ node_id +:+ "/in"
  | get_node_out_links node_id => "/nodes/" +:+ node_id +:+ "/out"
  | get_schema namespace schema_name =>
      "/namespaces/" +:+ namespace +:+ "/schemas/" +:+ schema_name
  | get_schemas namespace => "/namespaces/" +:+ namespace +:+ "/schemas/"
  | info => "/info"
  | oql_query _ namespace => "/nodes/oql/" +:+ namespace
  | oql_query_page _ namespace page => "/nodes/oql/" +:+ namespace +:+ "/page/" +:+ pretty page
  | query _ namespace => "/nodes/query/" +:+ namespace
  | query_page _ namespace page => "/nodes/query/" +:+ namespace +:+ "/page/" +:+ pretty page
  end.

(** The query a query operation writes to its request; the GET
    operations write nothing. *)
Definition written (op : Operation) : option Query :=
  match op with
  | oql_query q _ | oql_query_page q _ _ | query q _ | query_page q _ _ => Some q
  | _ => None
  end.

(** [method:] of the options. *)
Definition method (op : Operation) : string :=
  match written op with
  | Some _ => "POST"
  | None => "GET"
  end.

End Api.

(** The [options] object given to [http.request]. *)
Record Options : Type := {
  auth : option string;
  host : string;
  port : Z;
  path : string;
  method : string
}.

Section Client.
Context {W T : Type}.
(** The settings of the module ([osdf.auth], [osdf.host], [osdf.port]). *)
Variable this_auth : option string.
Variable this_host : string.
Variable this_port : Z.
(** The transport: what becomes of [http.request] with these options and
    of the request with this body, in a given state of the world. *)
Variable http : Options -> option string -> W -> Requested * W.
(** The two functions of the runtime's [JSON] object.  [JSON.stringify]
    is applied to objects that are trees, on which it does not throw. *)
Variable JSON_stringify : list (string * JSValue) -> string.
Variable JSON_parse : string -> option T.

Definition options (op : Api.Operation) : Options :=
  {| auth := this_auth; host := this_host; port := this_port;
     path := Api.path op; method := Api.method op |}.

(** [query_helper]:
<<
  if (_.isObject(query)) { request.write(JSON.stringify(query)); }
  else                   { request.write(query); }
>>
    An ElasticSearch query is the object, an OQL query the string. *)
Definition request_body (query : Query) : string :=
  match query with
  | ES es_query => JSON_stringify es_query
  | OQL oql_query => oql_query
  end.

(** An operation called with a callback: [get_helper(options, callback)]
    for the GET operations, [query_helper(options, query, callback)] for
    the query operations.  What [http.request] throws is thrown to the
    caller of the operation. *)
Definition call_with_callback (op : Api.Operation) (w : W)
    : Exc (Completion (option T)) * W :=
  match Api.written op with
  | None =>
      let '(requested, w') := http (options op) None w in
      (match requested with
       | Refused e => Throw e
       | Made ev => get_helper_callback JSON_parse ev
       end, w')
  | Some query =>
      let '(requested, w') := http (options op) (Some (request_body query)) w in
      (match requested with
       | Refused e => Throw e
       | Made ev => query_helper_callback JSON_parse ev
       end, w')
  end.

(** The same operation called without a callback: it returns a promise,
    and makes its request in the executor of that promise, so that what
    [http.request] throws rejects the promise. *)
Definition call_with_promise (op : Api.Operation) (w : W)
    : Exc (Settlement T) * W :=
  match Api.written op with
  | None =>
      let '(requested, w') := http (options op) None w in
      (match requested with
       | Refused e => Normal (Rejected (JError e))
       | Made ev => get_helper_promise JSON_parse ev
       end, w')
  | Some query =>
      let '(requested, w') := http (options op) (Some (request_body query)) w in
      (match requested with
       | Refused e => Normal (Rejected (JError e))
       | Made ev => query_helper_promise JSON_parse ev
       end, w')
  end.
End Client.

Section Module.
Context {W : Type}.
Variable this_auth : option string.
Variable this_host : string.
Variable this_port : Z.
Variable http : Options -> option string -> W -> Requested * W.
Variable JSON_stringify : list (string * JSValue) -> string.
(** [JSON.parse] on the body of the response to a request for a page:
    [None] for a text that is not JSON; for a JSON text the page it
    holds, or [Some None] when it holds a value that is not a page
    ([null], [{}], ...). *)
Variable JSON_parse : string -> option (option Page).

(** How a single-page operation called with a callback looks to the
    helper that called it: [query_helper(options, query, callback)],
    seen from the callback.  [null], the data beside every error, is
    not a page either. *)
Definition reply_of (requested : Requested) : Reply :=
  match requested with
  | Refused e => Throws e
  | Made ev =>
      match query_helper_callback JSON_parse ev with
      | Normal (Invoked err (Some page_result)) => CallsBack err page_result
      | Normal (Invoked err None) => CallsBack err None
      | Throw e => Raises e
      end
  end.

(** The module object itself, which [query_all] and [oql_query_all] pass
    to the helpers as [osdf]. *)
Definition osdf : Osdf W :=
  {| oql_query_page := fun oql_query namespace page w =>
       let '(requested, w') :=
         http (options this_auth this_host this_port
                 (Api.oql_query_page oql_query namespace page))
              (Some (request_body JSON_stringify oql_query)) w in
       (reply_of requested, w');
     query_page := fun es_query namespace page w =>
       let '(requested, w') :=
         http (options this_auth this_host this_port
                 (Api.query_page es_query namespace page))
              (Some (request_body JSON_stringify es_query)) w in
       (reply_of requested, w') |}.

(** [osdf.query_all(es_query, namespace, callback)] and
    [osdf.oql_query_all(oql_query, namespace, callback)], each in its
    two branches. *)
Definition query_all_callback (es_query : Query) (namespace : string) :=
  make_query_all_callback_helper es_query namespace osdf.

Definition query_all_promise (es_query : Query) (namespace : string) :=
  make_query_all_promise_helper es_query namespace osdf.

Definition oql_query_all_callback (oql_query : Query) (namespace : string) :=
  make_query_all_callback_helper oql_query namespace osdf.

Definition oql_query_all_promise (oql_query : Query) (namespace : string) :=
  make_query_all_promise_helper oql_query namespace osdf.
End Module.

(** ** Describing what a single-page operation answers *)

(** The round both helpers hand to [doWhilst] as its iteratee: one call
    of [func] with the current page number, recorded in [fetched], and
    the handler run on what comes back. *)
Definition round {W : Type} (f : FetchOp W) (query : Query) (namespace : string)
    (s : Run W) : Run W * Exc Next :=
  let '(reply, w') := f query namespace (page (vars s)) (world s) in
  let log := fetched s ++ [(page (vars s), reply)] in
  match reply with
  | Raises e | Throws e => ({| vars := vars s; world := w'; fetched := log |}, Throw e)
  | CallsBack err page_result =>
      let '(v, cb) := on_page (vars s) err page_result in
      ({| vars := v; world := w'; fetched := log |}, cb)
  end.

(** The test both helpers hand to [doWhilst]:
    [function(results, cb) { cb(null, has_next_page); }] *)
Definition whilst {W : Type} (s : Run W) (results : option (list JSValue)) : bool :=
  has_next_page (vars s).

(** The replies to [k] calls made one after the other, for the pages
    [n], [n+1], ..., the first of them in the world [w]; and the world
    they leave. *)
Fixpoint transcript {W : Type} (f : FetchOp W) (query : Query) (namespace : string)
    (w : W) (n : Z) (k : nat) : list Reply :=
  match k with
  | O => []
  | S k' =>
      let '(reply, w') := f query namespace n w in
      reply :: transcript f query namespace w' (n + 1) k'
  end.

Fixpoint world_after {W : Type} (f : FetchOp W) (query : Query) (namespace : string)
    (w : W) (n : Z) (k : nat) : W :=
  match k with
  | O => w
  | S k' => world_after f query namespace (snd (f query namespace n w)) (n + 1) k'
  end.

(** The reply delivers the page [p]: the callback is invoked with an
    [err] that is not truthy ([null] for the operations of the client)
    and with [p]. *)
Definition delivers (reply : Reply) (p : Page) : Prop :=
  exists err, truthy err = false /\ reply = CallsBack err (Some p).

(** The reply is a page with at least one result, delivered without
    error: the only reply after which a helper asks for the next page. *)
Definition continues (reply : Reply) : bool :=
  match reply with
  | CallsBack err (Some p) => negb (truthy err) && (0 <? Z.of_nat (length (results p)))
  | _ => false
  end.

(** The result list a reply carries. *)
Definition results_of (reply : Reply) : list JSValue :=
  match reply with
  | CallsBack _ (Some p) => results p
  | _ => []
  end.

(** The operation answers a given query the same way whatever the state
    of the world: each page number always yields the same reply. *)
Definition deterministic {W : Type} (f : FetchOp W) (query : Query) (namespace : string) : Prop :=
  forall (n : Z) (w w' : W), fst (f query namespace n w) = fst (f query namespace n w').

(** The completion of a callback and the settlement of a promise that
    tell the same thing. *)
Inductive same_outcome : Completion JSValue -> Settlement JSValue -> Prop :=
| same_success (final : JSValue) : same_outcome (Invoked JNull final) (Resolved final)
| same_failure (err : JSValue) : same_outcome (Invoked err JNull) (Rejected err).

Inductive same_end : option (Exc (Completion JSValue)) -> option (Exc (Settlement JSValue)) -> Prop :=
| both_running : same_end None None
| both_uncaught (e : Exn) : same_end (Some (Throw e)) (Some (Throw e))
| both_completed c s : same_outcome c s -> same_end (Some (Normal c)) (Some (Normal s)).

(** The run at the head of a round that follows only rounds that
    continued: [has_next_page] is still [true]. *)
Definition at_head {W : Type} (pg : Z) (all : list JSValue) (w : W)
    (log : list (Z * Reply)) : Run W :=
  {| vars := {| page := pg; has_next_page := true; all_results := all |};
     world := w; fetched := log |}.

(** How the loop ends on the reply that stops it, [s'] being the run
    after that reply. *)
Definition ending {W R : Type} (callback : Run W -> JSValue -> option (list JSValue) -> R)
    (s' : Run W) (r : Reply) : Exc R :=
  match r with
  | Raises e | Throws e => Throw e
  | CallsBack err page_result =>
      if truthy err then Normal (callback s' err None)
      else
        match page_result with
        | None => Throw TypeError
        | Some _ => Normal (callback s' JNull (Some (all_results (vars s'))))
        end
  end.

(** The final function each helper hands to [doWhilst]:
<<
  function(err, results) {
      if (err) { callback(err, null); }       // reject(err);
      else { var final = {..}; callback(null, final); }   // resolve(final);
  }
>> *)
Definition report_callback {W : Type} (s : Run W) (err : JSValue)
    (results : option (list JSValue)) : Completion JSValue :=
  if truthy err then Invoked err JNull
  else Invoked JNull (final (all_results (vars s))).

Definition report_promise {W : Type} (s : Run W) (err : JSValue)
    (results : option (list JSValue)) : Settlement JSValue :=
  if truthy err then Rejected err
  else Resolved (final (all_results (vars s))).

(** The reply is a failure: it delivers no page. *)
Definition fails (reply : Reply) : Prop := forall p, ~ delivers reply p.

(** The operation does not look at the query it is given. *)
Definition ignores_query {W : Type} (f : FetchOp W) : Prop :=
  forall query query' namespace n w, f query namespace n w = f query' namespace n w.

(** [c] occurs in [s]. *)
Fixpoint occurs (c : ascii) (s : string) : bool :=
  match s with
  | EmptyString => false
  | String c' rest => Ascii.eqb c' c || occurs c rest
  end.

(** ** Operations for experiments *)

(** The page with the given items and number. *)
Definition page_of (items : list JSValue) (index : Z) : Page :=
  {| results := items;
     result_count := Z.of_nat (length items);
     search_result_total := Z.of_nat (length items);
     page_index := index |}.

(** An operation that answers from a script, whatever it is asked: the
    world is the list of replies still to give; after them every page is
    empty. *)
Definition scripted : FetchOp (list Reply) :=
  fun _ _ n w =>
    match w with
    | reply :: rest => (reply, rest)
    | [] => (CallsBack JNull (Some (page_of [] n)), [])
    end.

(** An operation that gives the same reply to every call. *)
Definition always (reply : Reply) : FetchOp unit :=
  fun _ _ _ w => (reply, w).

(** A transport that answers every request with the same response. *)
Definition responding (response : Response) : Options -> option string -> unit -> Requested * unit :=
  fun _ _ w => (Made (ResponseEvent response), w).

(** A transport whose [http.request] always throws: the one of a module
    on which [setup] was never called. *)
Definition refusing (e : Exn) : Options -> option string -> unit -> Requested * unit :=
  fun _ _ w => (Refused e, w).

Definition scripted_osdf : Osdf (list Reply) :=
  {| oql_query_page := scripted; query_page := scripted |}.

(** An operation that counts the calls it gets and answers each page
    number always the same way: pages 1 and 2 hold one item, the others
    none. *)
Definition counting : FetchOp nat :=
  fun _ _ n w =>
    (CallsBack JNull (Some (page_of (if n <=? 2 then [JNum n] else []) n)), S w).

Definition counting_osdf : Osdf nat :=
  {| oql_query_page := counting; query_page := counting |}.

(** An [osdf] object whose two operations fail at once, each with its
    own name as the error; and the same with the two exchanged. *)
Definition probe : Osdf unit :=
  {| oql_query_page := always (CallsBack (JStr "oql_query_page") None);
     query_page := always (CallsBack (JStr "query_page") None) |}.

Definition probe_exchanged : Osdf unit :=
  {| oql_query_page := query_page probe; query_page := oql_query_page probe |}.

Definition some_query : Query := ES [("query", JObj [("match_all", JObj [])])].

Definition item_a : JSValue := JObj [("id", JStr "a")].
Definition item_b : JSValue := JObj [("id", JStr "b")].
Definition item_c : JSValue := JObj [("id", JStr "c")].

(** The pages [[a, b]], [[c]], [[]], in sequence. *)
Definition three_pages : list Reply :=
  [CallsBack JNull (Some (page_of [item_a; item_b] 1));
   CallsBack JNull (Some (page_of [item_c] 2));
   CallsBack JNull (Some (page_of [] 3))].

(** One page, then a failure with the error ['Internal Server Error']. *)
Definition page_then_failure : list Reply :=
  [CallsBack JNull (Some (page_of [item_a; item_b] 1));
   CallsBack (JStr "Internal Server Error") None;
   CallsBack JNull (Some (page_of [item_c] 3))].

(** The double quote, to write JSON texts with. *)
Definition dq : string := String "034"%char EmptyString.

(** Responses: a document in a [200 OK] delivered in two chunks; a
    [204 No Content], whose body is empty; a [404] with the server's own
    error message; a [500] without [x-osdf-error] header and with an
    empty reason phrase; a [201 Created] with the address of the new
    node, and one without. *)
Definition ok_in_two_chunks : Response :=
  {| statusCode := 200; headers := ∅; statusMessage := Some "OK";
     chunks := ["{ " +:+ dq +:+ "ver" +:+ dq +:+ ": 1, " +:+ dq +:+ "link";
                "age" +:+ dq +:+ ": [] }"] |}.

Definition no_content : Response :=
  {| statusCode := 204; headers := ∅; statusMessage := Some "No Content"; chunks := [] |}.

Definition not_found : Response :=
  {| statusCode := 404;
     headers := {[ "x-osdf-error" := "No such node" ]};
     statusMessage := Some "Not Found";
     chunks := [] |}.

Definition empty_reason : Response :=
  {| statusCode := 500; headers := ∅; statusMessage := Some ""; chunks := [] |}.

Definition created : Response :=
  {| statusCode := 201;
     headers := {[ "location" := "http://127.0.0.1:8123/nodes/5c5d2f" ]};
     statusMessage := Some "Created";
     chunks := [] |}.

Definition created_without_location : Response :=
  {| statusCode := 201; headers := ∅; statusMessage := Some "Created"; chunks := [] |}.

(** ** The operations that change the server

    The handlers of the operations that delete, edit, insert and
    validate never parse a body.  A callback called with one argument
    finds [undefined] as its second; [resolve()] settles the promise
    with [undefined]. *)

(** [deletion_helper(options, callback)] with a callback:
<<
  response.on('end', function() {
      if (response['statusCode'] === 204) { callback(null); }
      else { .. callback(<error value>); }
  });
  request.on('error', function(err) { callback(err, null); });
>> *)
Definition deletion_helper_callback (ev : HttpEvent) : Exc (Completion JSValue) :=
  match ev with
  | ErrorEvent err => Normal (Invoked err JNull)
  | ResponseEvent response =>
      if statusCode response =? 204 then Normal (Invoked JNull JUndefined)
      else Normal (Invoked (error_value response) JUndefined)
  end.

(** [deletion_helper(options)] without one: [resolve()] on 204,
    [reject(<error value>)] otherwise, [reject(err)] on ['error']. *)
Definition deletion_helper_promise (ev : HttpEvent) : Exc (Settlement JSValue) :=
  match ev with
  | ErrorEvent err => Normal (Rejected err)
  | ResponseEvent response =>
      if statusCode response =? 204 then Normal (Resolved JUndefined)
      else Normal (Rejected (error_value response))
  end.

(** [insertion_helper(options, data, callback)]:
<<
  if (response['statusCode'] === 201) { callback(null); }
  else { .. callback(<error value>, null); }
>> *)
Definition insertion_helper_callback (ev : HttpEvent) : Exc (Completion JSValue) :=
  match ev with
  | ErrorEvent err => Normal (Invoked err JNull)
  | ResponseEvent response =>
      if statusCode response =? 201 then Normal (Invoked JNull JUndefined)
      else Normal (Invoked (error_value response) JNull)
  end.

Definition insertion_helper_promise (ev : HttpEvent) : Exc (Settlement JSValue) :=
  match ev with
  | ErrorEvent err => Normal (Rejected err)
  | ResponseEvent response =>
      if statusCode response =? 201 then Normal (Resolved JUndefined)
      else Normal (Rejected (error_value response))
  end.

(** The handler that [edit_aux_schema], [edit_node] and [edit_schema]
    each spell out:
<<
  if (response['statusCode'] === 200) { callback(null); }
  else { .. callback(<error value>); }
>> *)
Definition edit_callback (ev : HttpEvent) : Exc (Completion JSValue) :=
  match ev with
  | ErrorEvent err => Normal (Invoked err JNull)
  | ResponseEvent response =>
      if statusCode response =? 200 then Normal (Invoked JNull JUndefined)
      else Normal (Invoked (error_value response) JUndefined)
  end.

Definition edit_promise (ev : HttpEvent) : Exc (Settlement JSValue) :=
  match ev with
  | ErrorEvent err => Normal (Rejected err)
  | ResponseEvent response =>
      if statusCode response =? 200 then Normal (Resolved JUndefined)
      else Normal (Rejected (error_value response))
  end.

(** [osdf.validate_node(node_data, callback)]: the body is collected and
    handed over as the text it is,
<<
  if (response['statusCode'] === 422 || response['statusCode'] === 200) { callback(null, body); }
  else { .. callback(<error value>, null); }
>> *)
Definition validate_node_callback (ev : HttpEvent) : Exc (Completion JSValue) :=
  match ev with
  | ErrorEvent err => Normal (Invoked err JNull)
  | ResponseEvent response =>
      if (statusCode response =? 422) || (statusCode response =? 200) then
        Normal (Invoked JNull (JStr (body_of response)))
      else Normal (Invoked (error_value response) JNull)
  end.

Definition validate_node_promise (ev : HttpEvent) : Exc (Settlement JSValue) :=
  match ev with
  | ErrorEvent err => Normal (Rejected err)
  | ResponseEvent response =>
      if (statusCode response =? 422) || (statusCode response =? 200) then
        Normal (Resolved (JStr (body_of response)))
      else Normal (Rejected (error_value response))
  end.

(** The operations of the client that are not in [Api]: what each puts
    in its [options], what it writes to the request, and the handler it
    installs. *)
Module Command.

(** A document: the own properties of an object, a tree, on which
    [JSON.stringify] does not throw. *)
Definition Document : Type := list (string * JSValue).

Inductive Operation : Type :=
| delete_aux_schema (namespace aux_schema_name : string)
| delete_node (node_id : string)
| delete_schema (namespace schema_name : string)
| edit_aux_schema (namespace aux_schema_name : string) (aux_schema : Document)
| edit_node (node_id : string) (node_data : Document)
| edit_schema (namespace name : string) (schema : Document)
| insert_aux_schema (namespace name : string) (aux_schema : Document)
| insert_node (node_data : Document)
| insert_schema (namespace name : string) (schema : Document)
| validate_node (node_data : Document).

Definition path (op : Operation) : string :=
  match op with
  | delete_aux_schema namespace aux_schema_name =>
      "/namespaces/" +:+ namespace +:+ "/schemas/aux/" +:+ aux_schema_name
  | delete_node node_id => "/nodes/" +:+ node_id
  | delete_schema namespace schema_name =>
      "/namespaces/" +:+ namespace +:+ "/schemas/" +:+ schema_name
  | edit_aux_schema namespace aux_schema_name _ =>
      "/namespaces/" +:+ namespace +:+ "/schemas/aux/" +:+ aux_schema_name
  | edit_node node_id _ => "/nodes/" +:+ node_id
  | edit_schema namespace name _ => "/namespaces/" +:+ namespace +:+ "/schemas/" +:+ name
  | insert_aux_schema namespace _ _ => "/namespaces/" +:+ namespace +:+ "/schemas/aux"
  | insert_node _ => "/nodes"
  | insert_schema namespace _ _ => "/namespaces/" +:+ namespace +:+ "/schemas"
  | validate_node _ => "/nodes/validate"
  end.

Definition method (op : Operation) : string :=
  match op with
  | delete_aux_schema _ _ | delete_node _ | delete_schema _ _ => "DELETE"
  | edit_aux_schema _ _ _ | edit_node _ _ | edit_schema _ _ _ => "PUT"
  | insert_aux_schema _ _ _ | insert_node _ | insert_schema _ _ _ | validate_node _ => "POST"
  end.

(** [{ name: name, schema: schema }] *)
Definition schema_doc (name : string) (schema : Document) : Document :=
  [("name", JStr name); ("schema", JObj schema)].

(** The document whose [JSON.stringify] is written to the request; the
    deletions write nothing. *)
Definition written (op : Operation) : option Document :=
  match op with
  | delete_aux_schema _ _ | delete_node _ | delete_schema _ _ => None
  | edit_aux_schema _ _ aux_schema => Some aux_schema
  | edit_node _ node_data => Some node_data
  | edit_schema _ name schema => Some (schema_doc name schema)
  | insert_aux_schema _ name aux_schema => Some (schema_doc name aux_schema)
  | insert_node node_data => Some node_data
  | insert_schema _ name schema => Some (schema_doc name schema)
  | validate_node node_data => Some node_data
  end.

(** What the operation, called with a callback, makes of the event its
    request ends with; and the same for the promise it returns when
    called without. *)
Definition answer_callback (op : Operation) (ev : HttpEvent) : Exc (Completion JSValue) :=
  match op with
  | delete_aux_schema _ _ | delete_node _ | delete_schema _ _ => deletion_helper_callback ev
  | edit_aux_schema _ _ _ | edit_node _ _ | edit_schema _ _ _ => edit_callback ev
  | insert_aux_schema _ _ _ | insert_schema _ _ _ => insertion_helper_callback ev
  | insert_node _ => insert_node_callback ev
  | validate_node _ => validate_node_callback ev
  end.

Definition answer_promise (op : Operation) (ev : HttpEvent) : Exc (Settlement JSValue) :=
  match op with
  | delete_aux_schema _ _ | delete_node _ | delete_schema _ _ => deletion_helper_promise ev
  | edit_aux_schema _ _ _ | edit_node _ _ | edit_schema _ _ _ => edit_promise ev
  | insert_aux_schema _ _ _ | insert_schema _ _ _ => insertion_helper_promise ev
  | insert_node _ => insert_node_promise ev
  | validate_node _ => validate_node_promise ev
  end.

End Command.

Section Commands.
Context {W : Type}.
Variable this_auth : option string.
Variable this_host : string.
Variable this_port : Z.
Variable http : Options -> option string -> W -> Requested * W.
Variable JSON_stringify : list (string * JSValue) -> string.

(** The [options] each of these operations builds. *)
Definition command_options (op : Command.Operation) : Options :=
  {| auth := this_auth; host := this_host; port := this_port;
     path := Command.path op; method := Command.method op |}.

(** One of these operations called with a callback: it installs its
    handler with [http.request(options, cb)] and writes its document.
    What [http.request] throws is thrown to the caller. *)
Definition command_with_callback (op : Command.Operation) (w : W)
    : Exc (Completion JSValue) * W :=
  let '(requested, w') :=
    http (command_options op) (JSON_stringify <$> Command.written op) w in
  (match requested with
   | Refused e => Throw e
   | Made ev => Command.answer_callback op ev
   end, w').

(** The same operation called without a callback: the request is made
    in the executor of the promise it returns, which what
    [http.request] throws rejects. *)
Definition command_with_promise (op : Command.Operation) (w : W)
    : Exc (Settlement JSValue) * W :=
  let '(requested, w') :=
    http (command_options op) (JSON_stringify <$> Command.written op) w in
  (match requested with
   | Refused e => Normal (Rejected (JError e))
   | Made ev => Command.answer_promise op ev
   end, w').
End Commands.

(** ** The settings of the module *)
Module Settings.

(** What [require('http')] and [require('https')] give. *)
Inductive Protocol : Type :=
| Http
| Https.

(** The properties of the module object that [setup] writes, and the
    variable [http] of the module, [null] until [setup] has run. *)
Record State : Type := {
  host : JSValue;
  port : JSValue;
  auth : JSValue;
  ssl : JSValue;
  http : option Protocol
}.

(**
<<
  var http =  null;
  osdf.host = '127.0.0.1';
  osdf.port = 8123;
  osdf.auth = null;
  osdf.ssl = false;
>> *)
Definition initial : State :=
  {| host := JStr "127.0.0.1"; port := JNum 8123; auth := JNull; ssl := JBool false;
     http := None |}.

(** [settings.k] and [settings['k']]: [undefined] for a property the
    object does not have. *)
Definition property (settings : list (string * JSValue)) (k : string) : JSValue :=
  default JUndefined (own_property k settings).

Section Setup.
(** [parseInt(v, 10)] belongs to the runtime. *)
Variable parseInt : JSValue -> JSValue.

(** [osdf.setup(settings)]:
<<
  this.host = settings.host;
  this.ssl = settings.ssl;
  if (this.ssl) { http = require('https'); } else { http = require('http'); }
  if (settings['port']) { this.port = parseInt(settings.port, 10); }
  if (settings['auth']) { this.auth = settings.auth; }
  return this;
>> *)
Definition setup (settings : list (string * JSValue)) (this : State) : State :=
  {| host := property settings "host";
     ssl := property settings "ssl";
     http := Some (if truthy (property settings "ssl") then Https else Http);
     port := if truthy (property settings "port") then parseInt (property settings "port")
             else port this;
     auth := if truthy (property settings "auth") then property settings "auth"
             else auth this |}.

(** One call of [setup] after the other, the first of the list first. *)
Definition setups (calls : list (list (string * JSValue))) (this : State) : State :=
  fold_left (fun this settings => setup settings this) calls this.
End Setup.

(** The expression [http.request(options, cb)] with which every
    operation makes its request: a TypeError while [http] is [null]. *)
Definition http_request (this : State) : Exc Protocol :=
  match http this with
  | Some protocol => Normal protocol
  | None => Throw TypeError
  end.

End Settings.

(** ** More ways to describe what is answered and sent *)

(** Two replies that differ at most in the numbers a page carries
    beside its results ([result_count], [search_result_total], [page]). *)
Definition same_payload (r r' : Reply) : Prop :=
  match r, r' with
  | CallsBack err (Some p), CallsBack err' (Some p') => err = err' /\ results p = results p'
  | CallsBack err None, CallsBack err' None => err = err'
  | Raises e, Raises e' => e = e'
  | Throws e, Throws e' => e = e'
  | _, _ => False
  end.

(** The run [s] has what the run [s0] had, and possibly more: the
    results gathered and the calls made begin with those of [s0], and
    the page number is not smaller. *)
Definition extends {W : Type} (s0 s : Run W) : Prop :=
  all_results (vars s0) `prefix_of` all_results (vars s) /\
  fetched s0 `prefix_of` fetched s /\
  page (vars s0) <= page (vars s).

(** A request as the transport sees it: the options and what was
    written. *)
Definition Request : Type := Options * option string.

(** The transport [http], with the requests made so far kept beside its
    own world, oldest first; nothing is made of a request that
    [http.request] refuses. *)
Definition recording {W : Type} (http : Options -> option string -> W -> Requested * W)
    : Options -> option string -> list Request * W -> Requested * (list Request * W) :=
  fun options body w =>
    let '(requested, w') := http options body (snd w) in
    (requested,
     (match requested with
      | Refused _ => fst w
      | Made _ => fst w ++ [(options, body)]
      end, w')).

(** The calls of a log that were requests: those that did not throw
    before anything was sent. *)
Definition was_requested (call : Z * Reply) : bool :=
  match snd call with
  | Throws _ => false
  | _ => true
  end.

(** The request one expects for page [n] of a query: a POST to the path
    of the dialect of the query, with the page number at its end, and
    the query as its body, an object as its JSON text and a string as it
    is. *)
Definition page_request (this_auth : option string) (this_host : string) (this_port : Z)
    (JSON_stringify : list (string * JSValue) -> string)
    (query : Query) (namespace : string) (n : Z) : Request :=
  ({| auth := this_auth; host := this_host; port := this_port;
      path := (if isString query then "/nodes/oql/" else "/nodes/query/")
                +:+ namespace +:+ "/page/" +:+ pretty n;
      method := "POST" |},
   Some match query with
        | ES es_query => JSON_stringify es_query
        | OQL oql_query => oql_query
        end).

(** A transport that goes through a script, whatever it is asked: the
    world is what becomes of the requests still to come; after them the
    connection is reset. *)
Definition serving : Options -> option string -> list Requested -> Requested * list Requested :=
  fun _ _ w =>
    match w with
    | requested :: rest => (requested, rest)
    | [] => (Made (ErrorEvent (JStr "ECONNRESET")), [])
    end.

(** A [200 OK] with the given body. *)
Definition ok (body : string) : Requested :=
  Made (ResponseEvent {| statusCode := 200; headers := ∅; statusMessage := Some "OK";
                         chunks := [body] |}).

(** Three JSON texts: a page with two results, a page without, and an
    object that is not a page; and [JSON.parse] as far as the
    experiments need it, on these texts and on [null].  Any other text
    is answered as one that is not JSON. *)
Definition page_1_2_text : string := "{" +:+ dq +:+ "results" +:+ dq +:+ ": [1, 2]}".
Definition page_empty_text : string := "{" +:+ dq +:+ "results" +:+ dq +:+ ": []}".
Definition not_a_page_text : string := "{}".

Definition parse_page (text : string) : option (option Page) :=
  if String.eqb text page_1_2_text then Some (Some (page_of [JNum 1; JNum 2] 1))
  else if String.eqb text page_empty_text then Some (Some (page_of [] 2))
  else if String.eqb text not_a_page_text then Some None
  else if String.eqb text "null" then Some None
  else None.

(** The pages [[a, b]], [[c]], [[]] again, from a server that gets its
    counts wrong. *)
Definition three_pages_miscounted : list Reply :=
  [CallsBack JNull (Some {| results := [item_a; item_b]; result_count := 20;
                            search_result_total := 1000; page_index := 7 |});
   CallsBack JNull (Some {| results := [item_c]; result_count := 0;
                            search_result_total := -1; page_index := 7 |});
   CallsBack JNull (Some {| results := []; result_count := 5;
                            search_result_total := 1000; page_index := 0 |})].

(** * Properties *)

(** ** The loop, one round at a time *)

Section Loop.
Context {W R : Type}.
Variable f : FetchOp W.
Variable query : Query.
Variable namespace : string.
Variable callback : Run W -> JSValue -> option (list JSValue) -> R.

Local Abbreviation loop := (doWhilst (round f query namespace) whilst callback).

(** What a reply that continues the loop looks like. *)
Lemma continues_inv (r : Reply) :
  continues r = true ->
  exists err p, r = CallsBack err (Some p) /\ truthy err = false /\ results p <> [].
Proof.
  destruct r as [err [p|]|e|e]; simpl; try discriminate.
  intros H. apply andb_true_iff in H as [H1 H2].
  exists err, p. split; [reflexivity|]. split.
  - by destruct (truthy err).
  - intros E. rewrite E in H2. simpl in H2. discriminate.
Qed.

(** A round on a reply that continues: next page number, results
    appended, [has_next_page] untouched. *)
Lemma round_continues pg all w log :
  continues (fst (f query namespace pg w)) = true ->
  round f query namespace (at_head pg all w log) =
    (at_head (pg + 1) (all ++ results_of (fst (f query namespace pg w)))
       (snd (f query namespace pg w)) (log ++ [(pg, fst (f query namespace pg w))]),
     Normal (next JNull (Some (all ++ results_of (fst (f query namespace pg w)))))).
Proof.
  intros H. unfold round, at_head. simpl.
  destruct (f query namespace pg w) as [r w'] eqn:E. simpl in *.
  destruct (continues_inv r H) as [err [p [-> [Herr Hne]]]].
  unfold on_page. simpl. rewrite Herr.
  assert ((0 <? Z.of_nat (length (results p))) = true) as ->.
  { apply Z.ltb_lt. destruct (results p); [done | simpl; lia]. }
  reflexivity.
Qed.

(** [k] rounds on replies that continue. *)
Lemma loop_continues (k : nat) : forall fuel pg all w log,
  Forall (fun r => continues r = true) (transcript f query namespace w pg k) ->
  loop (k + fuel)%nat (at_head pg all w log) =
  loop fuel
    (at_head (pg + Z.of_nat k)
       (all ++ concat (results_of <$> transcript f query namespace w pg k))
       (world_after f query namespace w pg k)
       (log ++ zip (seqZ pg (Z.of_nat k)) (transcript f query namespace w pg k))).
Proof.
  induction k as [|k IH]; intros fuel pg all w log H.
  - simpl. rewrite Z.add_0_r, !app_nil_r. reflexivity.
  - simpl transcript in *.
    destruct (f query namespace pg w) as [r w'] eqn:E.
    apply Forall_cons in H as [Hr Hrest].
    change (S k + fuel)%nat with (S (k + fuel)). cbn [doWhilst].
    rewrite round_continues by (rewrite E; exact Hr).
    rewrite E. cbn [fst snd]. cbn [truthy].
    unfold whilst at 1. cbn [vars at_head has_next_page].
    rewrite IH by exact Hrest.
    f_equal. unfold at_head.
    rewrite (seqZ_cons pg (Z.of_nat (S k))) by (rewrite Nat2Z.inj_succ; lia).
    cbn [zip zip_with fmap list_fmap concat world_after]. rewrite E. cbn [snd].
    replace (Z.succ pg) with (pg + 1) by lia.
    replace (Z.pred (Z.of_nat (S k))) with (Z.of_nat k) by lia.
    replace (pg + 1 + Z.of_nat k) with (pg + Z.of_nat (S k)) by lia.
    rewrite <- !app_assoc. reflexivity.
Qed.

(** A round on a reply that does not continue is the last one. *)
Lemma loop_ends fuel pg all w log :
  continues (fst (f query namespace pg w)) = false ->
  exists s',
    loop (S fuel) (at_head pg all w log) = (s', Some (ending callback s' (fst (f query namespace pg w)))) /\
    fetched s' = log ++ [(pg, fst (f query namespace pg w))] /\
    all_results (vars s') = all /\
    world s' = snd (f query namespace pg w).
Proof.
  intros H. cbn [doWhilst]. unfold round, at_head, whilst, ending, on_page.
  cbn [vars world fetched page has_next_page all_results].
  destruct (f query namespace pg w) as [r w'] eqn:E. cbn [fst snd] in *.
  destruct r as [err [p|]|e|e]; cbn [continues] in H.
  - destruct (truthy err) eqn:Herr; cbn [negb andb] in H; rewrite ?H;
      cbn [truthy]; rewrite ?Herr; cbn [vars has_next_page];
      (lazymatch goal with |- exists s', (?a, _) = _ /\ _ => exists a end;
       split; [reflexivity|]; by cbn).
  - destruct (truthy err) eqn:Herr;
      cbn [truthy]; rewrite ?Herr; cbn [vars has_next_page];
      (lazymatch goal with |- exists s', (?a, _) = _ /\ _ => exists a end;
       split; [reflexivity|]; by cbn).
  - eexists. split; [reflexivity|]. by cbn.
  - eexists. split; [reflexivity|]. by cbn.
Qed.

(** Transcripts, unfolded at either end. *)
Lemma transcript_S w pg (k : nat) :
  transcript f query namespace w pg (S k) =
  fst (f query namespace pg w) ::
    transcript f query namespace (snd (f query namespace pg w)) (pg + 1) k.
Proof. simpl. by destruct (f query namespace pg w). Qed.

Lemma transcript_snoc (k : nat) : forall w pg,
  transcript f query namespace w pg (S k) =
  transcript f query namespace w pg k ++
    [fst (f query namespace (pg + Z.of_nat k) (world_after f query namespace w pg k))].
Proof.
  induction k as [|k IH]; intros w pg.
  - rewrite transcript_S. cbn. by rewrite Z.add_0_r.
  - rewrite transcript_S, IH, (transcript_S w pg k). cbn [world_after app].
    replace (pg + 1 + Z.of_nat k) with (pg + Z.of_nat (S k)) by lia.
    reflexivity.
Qed.

Lemma transcript_length (k : nat) : forall w pg,
  length (transcript f query namespace w pg k) = k.
Proof.
  induction k as [|k IH]; intros w pg; [reflexivity|].
  simpl. destruct (f query namespace pg w). simpl. by rewrite IH.
Qed.

(** Every run, whatever the fuel: the calls made are those of a
    transcript; all replies but the last one continue; without an
    outcome the fuel is used up, with an outcome the last reply is the
    one that stops the loop and decides how it ends. *)
Lemma loop_run (fuel : nat) : forall pg all w log s' out,
  loop fuel (at_head pg all w log) = (s', out) ->
  exists k : nat,
    (k <= fuel)%nat /\
    fetched s' = log ++ zip (seqZ pg (Z.of_nat k)) (transcript f query namespace w pg k) /\
    match out with
    | None =>
        k = fuel /\
        Forall (fun r => continues r = true) (transcript f query namespace w pg k)
    | Some e =>
        exists k0 : nat,
          k = S k0 /\
          Forall (fun r => continues r = true) (transcript f query namespace w pg k0) /\
          let r := fst (f query namespace (pg + Z.of_nat k0)
                          (world_after f query namespace w pg k0)) in
          continues r = false /\
          e = ending callback s' r /\
          all_results (vars s') =
            all ++ concat (results_of <$> transcript f query namespace w pg k0)
    end.
Proof.
  induction fuel as [|fuel IH]; intros pg all w log s' out H.
  - cbn in H. injection H as <- <-. exists 0%nat.
    split; [lia|]. split; [cbn; by rewrite app_nil_r|]. split; [reflexivity|constructor].
  - destruct (continues (fst (f query namespace pg w))) eqn:C.
    + cbn [doWhilst] in H. rewrite round_continues in H by exact C.
      cbn [truthy] in H.
      change (whilst (at_head ?a ?b ?c ?d) ?e) with true in H. cbv iota in H.
      destruct (f query namespace pg w) as [r w'] eqn:E. cbn [fst snd] in *.
      apply IH in H as (k & Hk & Hlog & Hout).
      exists (S k). split; [lia|]. split.
      * rewrite Hlog, transcript_S, E. cbn [fst snd].
        rewrite (seqZ_cons pg (Z.of_nat (S k))) by (rewrite Nat2Z.inj_succ; lia).
        cbn [zip zip_with]. rewrite <- app_assoc. cbn [app].
        replace (Z.succ pg) with (pg + 1) by lia.
        replace (Z.pred (Z.of_nat (S k))) with (Z.of_nat k) by lia.
        reflexivity.
      * destruct out as [e|].
        -- destruct Hout as (k0 & -> & Hall & Hlast & He & Hres).
           exists (S k0). split; [reflexivity|].
           rewrite transcript_S, E. cbn [fst snd world_after]. rewrite E. cbn [snd].
           split; [by constructor|].
           replace (pg + Z.of_nat (S k0)) with (pg + 1 + Z.of_nat k0) by lia.
           split; [exact Hlast|]. split; [exact He|].
           rewrite Hres. cbn [fmap list_fmap concat]. by rewrite <- app_assoc.
        -- destruct Hout as [-> Hall]. split; [reflexivity|].
           rewrite transcript_S, E. by constructor.
    + destruct (loop_ends fuel pg all w log C) as (s1 & Hrun & Hlog & Hres & _).
      rewrite Hrun in H. injection H as <- <-.
      exists 1%nat. split; [lia|]. split.
      * rewrite Hlog. cbn. destruct (f query namespace pg w). reflexivity.
      * exists 0%nat. split; [reflexivity|]. split; [constructor|].
        cbn. rewrite Z.add_0_r, app_nil_r. auto.
Qed.

(** A reply with a truthy [err] is the last one of a run, and its
    [err] is what the final function is called with. *)
Lemma loop_truthy_error (fuel : nat) pg all w log s' out
    (i : nat) (n : Z) (err : JSValue) (page_result : option Page) :
  loop fuel (at_head pg all w log) = (s', out) ->
  fetched s' !! (length log + i)%nat = Some (n, CallsBack err page_result) ->
  truthy err = true ->
  out = Some (Normal (callback s' err None)) /\
  n = pg + Z.of_nat i /\
  length (fetched s') = (length log + S i)%nat.
Proof.
  intros Hrun Hi Herr.
  apply loop_run in Hrun as (k & _ & Hlog & Hout).
  rewrite Hlog, lookup_app_r, Nat.add_comm, Nat.add_sub in Hi by lia.
  apply lookup_zip_with_Some in Hi as (n0 & r0 & Heq & Hn & Hr).
  injection Heq as Hn0 Hr0. subst n0 r0. apply lookup_seqZ in Hn as [-> Hlt].
  assert (continues (CallsBack err page_result) = false) as Hstop
    by (cbn; rewrite Herr; by destruct page_result).
  assert (length (fetched s') = (length log + k)%nat) as Hlen
    by (rewrite Hlog, length_app, length_zip_with, length_seqZ, transcript_length; lia).
  destruct out as [e|].
  - destruct Hout as (k0 & -> & Hcont & Hlast & He & _).
    destruct (decide (i = k0)) as [->|Hne].
    + rewrite transcript_snoc, lookup_app_r in Hr by (rewrite transcript_length; lia).
      rewrite transcript_length, Nat.sub_diag in Hr. injection Hr as Hr.
      rewrite Hr in He. unfold ending in He. rewrite Herr in He.
      subst e. repeat split. exact Hlen.
    + rewrite transcript_snoc, lookup_app_l in Hr by (rewrite transcript_length; lia).
      eapply Forall_lookup_1 in Hcont; [|exact Hr]. congruence.
  - destruct Hout as [_ Hcont].
    eapply Forall_lookup_1 in Hcont; [|exact Hr]. congruence.
Qed.

End Loop.

(** ** The loop in general *)

Section DoWhilstFacts.
Context {S R : Type}.
Variable iteratee : S -> S * Exc Next.
Variable test : S -> option (list JSValue) -> bool.

(** An outcome, once reached, does not depend on the fuel left. *)
Lemma doWhilst_more_fuel (callback : S -> JSValue -> option (list JSValue) -> R)
    (fuel : nat) : forall (extra : nat) s s' r,
  doWhilst iteratee test callback fuel s = (s', Some r) ->
  doWhilst iteratee test callback (fuel + extra) s = (s', Some r).
Proof.
  induction fuel as [|fuel IH]; intros extra s s' r H; [discriminate|].
  cbn [doWhilst Nat.add] in *.
  destruct (iteratee s) as [s1 [[err results]|e]]; [|exact H].
  destruct (truthy err); [exact H|].
  destruct (test s1 results); [by apply IH | exact H].
Qed.

(** Two callbacks given to the same loop: the run is the same, and the
    outcomes are related as the callbacks are. *)
Lemma doWhilst_two_callbacks {R' : Type}
    (cb : S -> JSValue -> option (list JSValue) -> R)
    (cb' : S -> JSValue -> option (list JSValue) -> R')
    (related : R -> R' -> Prop) :
  (forall s err, truthy err = true -> related (cb s err None) (cb' s err None)) ->
  (forall s results, related (cb s JNull results) (cb' s JNull results)) ->
  forall fuel s,
    fst (doWhilst iteratee test cb fuel s) = fst (doWhilst iteratee test cb' fuel s) /\
    match snd (doWhilst iteratee test cb fuel s), snd (doWhilst iteratee test cb' fuel s) with
    | None, None => True
    | Some (Throw e), Some (Throw e') => e = e'
    | Some (Normal r), Some (Normal r') => related r r'
    | _, _ => False
    end.
Proof.
  intros Hfail Hdone fuel. induction fuel as [|fuel IH]; intros s; [by cbn|].
  cbn [doWhilst].
  destruct (iteratee s) as [s1 [[err results]|e]]; [|by cbn].
  destruct (truthy err) eqn:E; [cbn; auto|].
  destruct (test s1 results); [apply IH | cbn; auto].
Qed.
End DoWhilstFacts.

(** ** The helpers as loops *)

Section Helpers.
Context {W : Type}.
Variable osdf : Osdf W.
Variable query : Query.
Variable namespace : string.

(** Each helper is the loop of [round], [whilst] and its own final
    function, started at page 1 with nothing accumulated. *)
Lemma callback_helper_loop fuel w :
  make_query_all_callback_helper query namespace osdf fuel w =
  doWhilst (round (func osdf query) query namespace) whilst report_callback fuel
    (at_head 1 [] w []).
Proof. reflexivity. Qed.

Lemma promise_helper_loop fuel w :
  make_query_all_promise_helper query namespace osdf fuel w =
  executor (fst (func osdf query query namespace 1 w))
    (doWhilst (round (func osdf query) query namespace) whilst report_promise fuel
       (at_head 1 [] w [])).
Proof. reflexivity. Qed.

(** The executor leaves the run as it is, and tells of the outcome
    whether there is one. *)
Lemma executor_run (first : Reply) (run : Run W * option (Exc (Settlement JSValue))) :
  fst (executor first run) = fst run.
Proof. unfold executor. destruct run as [s o]. by destruct first, o. Qed.

Lemma executor_outcome (first : Reply) (run : Run W * option (Exc (Settlement JSValue))) :
  snd (executor first run) =
  match first, snd run with
  | Throws e, Some _ => Some (Normal (Rejected (JError e)))
  | _, outcome => outcome
  end.
Proof. unfold executor. destruct run as [s o]. by destruct first, o. Qed.

Lemma executor_running (first : Reply) (run : Run W * option (Exc (Settlement JSValue))) :
  snd (executor first run) = None <-> snd run = None.
Proof. rewrite executor_outcome. destruct run as [s o]. destruct first, o; split; done. Qed.

(** A first call that throws ends the loop at once, whatever the final
    function. *)
Lemma loop_first_throws {R : Type} (callback : Run W -> JSValue -> option (list JSValue) -> R)
    (fuel : nat) (w : W) (e : Exn) :
  fst (func osdf query query namespace 1 w) = Throws e ->
  snd (doWhilst (round (func osdf query) query namespace) whilst callback (S fuel)
         (at_head 1 [] w [])) = Some (Throw e).
Proof.
  intros H. cbn [doWhilst]. unfold round, at_head. cbn [vars page world].
  destruct (func osdf query query namespace 1 w) as [r w']. cbn [fst] in H. by subst r.
Qed.

(** Where the loop tells something, or is still running, the promise
    helper is the loop: the executor has returned long before. *)
Lemma promise_helper_settled fuel w (told : Settlement JSValue) :
  snd (doWhilst (round (func osdf query) query namespace) whilst report_promise fuel
         (at_head 1 [] w [])) = Some (Normal told) ->
  make_query_all_promise_helper query namespace osdf fuel w =
  doWhilst (round (func osdf query) query namespace) whilst report_promise fuel
    (at_head 1 [] w []).
Proof.
  intros H. rewrite promise_helper_loop. unfold executor.
  destruct (fst (func osdf query query namespace 1 w)) as [| |e] eqn:E; try reflexivity.
  destruct fuel as [|fuel]; [by cbn|].
  rewrite (loop_first_throws report_promise fuel w e E) in H. discriminate.
Qed.

(** Unless the first call throws, too. *)
Lemma promise_helper_not_thrown fuel w :
  (forall e, fst (func osdf query query namespace 1 w) <> Throws e) ->
  make_query_all_promise_helper query namespace osdf fuel w =
  doWhilst (round (func osdf query) query namespace) whilst report_promise fuel
    (at_head 1 [] w []).
Proof.
  intros H. rewrite promise_helper_loop. unfold executor.
  destruct (fst (func osdf query query namespace 1 w)) as [| |e] eqn:E; try reflexivity.
  by destruct (H e).
Qed.

(** The two helpers make the same calls and leave the same variables
    and the same world. *)
Lemma helpers_same_run fuel w :
  fst (make_query_all_callback_helper query namespace osdf fuel w) =
  fst (make_query_all_promise_helper query namespace osdf fuel w).
Proof.
  rewrite callback_helper_loop, promise_helper_loop, executor_run.
  apply (doWhilst_two_callbacks _ _ report_callback report_promise (fun _ _ => True)); auto.
Qed.

(** A run of [k] continuing replies followed by one that does not
    continue: with fuel for [k + 1] rounds the loop has ended, on that
    reply, after exactly [k + 1] calls. *)
Lemma helper_stops {R : Type} (callback : Run W -> JSValue -> option (list JSValue) -> R)
    (w : W) (k fuel : nat) :
  let f := func osdf query in
  let r := fst (f query namespace (1 + Z.of_nat k) (world_after f query namespace w 1 k)) in
  Forall (fun r => continues r = true) (transcript f query namespace w 1 k) ->
  continues r = false ->
  (k < fuel)%nat ->
  exists s',
    doWhilst (round f query namespace) whilst callback fuel (at_head 1 [] w []) =
      (s', Some (ending callback s' r)) /\
    fetched s' = zip (seqZ 1 (Z.of_nat (S k))) (transcript f query namespace w 1 (S k)) /\
    all_results (vars s') = concat (results_of <$> transcript f query namespace w 1 k).
Proof.
  intros f r Hcont Hlast Hfuel. subst r.
  replace fuel with (k + S (fuel - S k))%nat by lia.
  rewrite loop_continues by exact Hcont.
  destruct (loop_ends f query namespace callback (fuel - S k) (1 + Z.of_nat k)
              ([] ++ concat (results_of <$> transcript f query namespace w 1 k))
              (world_after f query namespace w 1 k)
              ([] ++ zip (seqZ 1 (Z.of_nat k)) (transcript f query namespace w 1 k)) Hlast)
    as (s' & Hrun & Hlog & Hall & _).
  exists s'. split; [exact Hrun|]. split; [|exact Hall].
  rewrite Hlog, transcript_snoc. cbn [app].
  rewrite seqZ_S, zip_with_app; [reflexivity|].
  rewrite length_seqZ, transcript_length. lia.
Qed.

(** Replies that deliver pages with results continue the loop and
    carry those results. *)
Lemma delivered_pages_continue (rs : list Reply) (pages : list Page) :
  Forall2 delivers rs pages ->
  Forall (fun p => results p <> []) pages ->
  Forall (fun r => continues r = true) rs /\
  concat (results_of <$> rs) = concat (results <$> pages).
Proof.
  induction 1 as [|r p rs pages [err [Herr ->]] _ IH]; intros Hne.
  - split; [constructor | reflexivity].
  - apply Forall_cons in Hne as [Hp Hps]. destruct (IH Hps) as [IH1 IH2].
    split.
    + constructor; [|exact IH1]. cbn. rewrite Herr. cbn.
      apply Z.ltb_lt. destruct (results p); [done | cbn; lia].
    + cbn. by rewrite IH2.
Qed.

(** A delivered page without results stops the loop. *)
Lemma delivered_empty_page_stops (r : Reply) (p : Page) :
  delivers r p -> results p = [] -> continues r = false.
Proof.
  intros [err [Herr ->]] Hp. cbn. rewrite Hp. cbn. apply andb_false_r.
Qed.

End Helpers.

(** ** The claims about the aggregation *)

(** C1.  When the operation selected for the query delivers the pages
    [pages] (each with at least one result) and then an empty page, the
    aggregation succeeds, in both styles, with the object whose
    [results] are the result lists of [pages] put end to end in page
    order, whose [result_count] and [search_result_total] are both the
    length of that list, and which has no [page] property. *)
Theorem query_all_concatenates_pages {W : Type} (osdf : Osdf W)
    (query : Query) (namespace : string) (w : W)
    (pages : list Page) (last_page : Page) (fuel : nat) :
  Forall2 delivers
    (transcript (func osdf query) query namespace w 1 (S (length pages)))
    (pages ++ [last_page]) ->
  Forall (fun p => results p <> []) pages ->
  results last_page = [] ->
  (length pages < fuel)%nat ->
  let all := concat (results <$> pages) in
  let answer :=
    JObj [("search_result_total", JNum (Z.of_nat (length all)));
          ("result_count", JNum (Z.of_nat (length all)));
          ("results", JArr all)] in
  snd (make_query_all_callback_helper query namespace osdf fuel w)
    = Some (Normal (Invoked JNull answer)) /\
  snd (make_query_all_promise_helper query namespace osdf fuel w)
    = Some (Normal (Resolved answer)) /\
  hasOwnProperty answer "page" = false.
Proof.
  intros Hserved Hne Hlast Hfuel all answer.
  rewrite transcript_snoc in Hserved.
  apply Forall2_app_inv in Hserved as [Hpages Hend];
    [|by rewrite transcript_length].
  apply Forall2_cons_1 in Hend as [Hend _].
  destruct (delivered_pages_continue _ _ Hpages Hne) as [Hcont Hall].
  pose proof (delivered_empty_page_stops _ _ Hend Hlast) as Hstop.
  destruct Hend as [err [Herr Hreply]].
  split; [|split; [|reflexivity]].
  - rewrite callback_helper_loop.
    destruct (helper_stops osdf query namespace report_callback w (length pages) fuel
                Hcont Hstop Hfuel) as (s' & -> & _ & Hres).
    cbn [snd]. rewrite Hreply. unfold ending, report_callback. rewrite Herr. cbn [truthy].
    rewrite Hres, Hall. reflexivity.
  - destruct (helper_stops osdf query namespace report_promise w (length pages) fuel
                Hcont Hstop Hfuel) as (s' & Hrun & _ & Hres).
    assert (snd (doWhilst (round (func osdf query) query namespace) whilst report_promise fuel
                   (at_head 1 [] w [])) = Some (Normal (Resolved answer))) as Hloop.
    { rewrite Hrun. cbn [snd]. rewrite Hreply. unfold ending, report_promise.
      rewrite Herr. cbn [truthy]. rewrite Hres, Hall. reflexivity. }
    by rewrite (promise_helper_settled osdf query namespace fuel w _ Hloop).
Qed.

(** C6.  When the first page comes back empty, the aggregation succeeds
    with no results and both counts 0, and exactly one call has been
    made to the single-page operation: the call for page 1, in the world
    the aggregation started in; the reply recorded is the reply of the
    operation to that call, and the world is left as that call left
    it. *)
Theorem first_page_empty {W : Type} (osdf : Osdf W)
    (query : Query) (namespace : string) (w : W) (p : Page) (fuel : nat) :
  delivers (fst (func osdf query query namespace 1 w)) p ->
  results p = [] ->
  (0 < fuel)%nat ->
  let answer :=
    JObj [("search_result_total", JNum 0); ("result_count", JNum 0); ("results", JArr [])] in
  let by_callback := make_query_all_callback_helper query namespace osdf fuel w in
  let by_promise := make_query_all_promise_helper query namespace osdf fuel w in
  snd by_callback = Some (Normal (Invoked JNull answer)) /\
  snd by_promise = Some (Normal (Resolved answer)) /\
  length (fetched (fst by_callback)) = 1%nat /\
  length (fetched (fst by_promise)) = 1%nat /\
  fetched (fst by_callback) = [(1, fst (func osdf query query namespace 1 w))] /\
  fetched (fst by_promise) = [(1, fst (func osdf query query namespace 1 w))] /\
  world (fst by_callback) = snd (func osdf query query namespace 1 w) /\
  world (fst by_promise) = snd (func osdf query query namespace 1 w).
Proof.
  intros Hp Hempty Hfuel answer by_callback by_promise.
  pose proof (delivered_empty_page_stops _ _ Hp Hempty) as Hstop.
  destruct Hp as [err [Herr Hreply]].
  destruct fuel as [|fuel]; [lia|].
  destruct (loop_ends (func osdf query) query namespace report_callback fuel 1 [] w [] Hstop)
    as (s1 & Hrun1 & Hlog1 & Hres1 & Hw1).
  destruct (loop_ends (func osdf query) query namespace report_promise fuel 1 [] w [] Hstop)
    as (s2 & Hrun2 & Hlog2 & Hres2 & Hw2).
  assert (snd (doWhilst (round (func osdf query) query namespace) whilst report_promise
                 (S fuel) (at_head 1 [] w [])) = Some (Normal (Resolved answer))) as Hloop.
  { rewrite Hrun2. cbn [snd]. rewrite Hreply. unfold ending, report_promise.
    rewrite Herr. cbn [truthy]. by rewrite Hres2. }
  subst by_callback by_promise.
  rewrite callback_helper_loop, (promise_helper_settled osdf query namespace _ w _ Hloop).
  rewrite Hrun1, Hrun2 in *. cbn [fst snd] in *.
  rewrite Hlog1, Hlog2, Hw1, Hw2. cbn [app length].
  split; [|by repeat split].
  rewrite Hreply. unfold ending, report_callback. rewrite Herr. cbn [truthy]. by rewrite Hres1.
Qed.

(** A failure stops the loop. *)
Lemma fails_stops (r : Reply) : fails r -> continues r = false.
Proof.
  intros Hf. destruct (continues r) eqn:C; [|reflexivity].
  destruct (continues_inv r C) as [err [p [-> [Herr _]]]].
  destruct (Hf p). by exists err.
Qed.

(** C4.  [pages] are the pages with results delivered for the page
    numbers 1, 2, ... and [r] is the reply to the next call, for page
    number [length pages + 1].  If [r] delivers an empty page the loop
    ends, successfully, after as many calls as there are pages with
    results plus one; if [r] is a failure the loop ends as well and the
    number of calls made is the number of the failing page. *)
Theorem fetch_count {W : Type} (osdf : Osdf W)
    (query : Query) (namespace : string) (w : W) (pages : list Page) (fuel : nat) :
  let f := func osdf query in
  let failing_page := 1 + Z.of_nat (length pages) in
  let r := fst (f query namespace failing_page
                  (world_after f query namespace w 1 (length pages))) in
  let by_callback := make_query_all_callback_helper query namespace osdf fuel w in
  let by_promise := make_query_all_promise_helper query namespace osdf fuel w in
  Forall2 delivers (transcript f query namespace w 1 (length pages)) pages ->
  Forall (fun p => results p <> []) pages ->
  (length pages < fuel)%nat ->
  ((exists p, delivers r p /\ results p = []) ->
     (exists answer, snd by_callback = Some (Normal (Invoked JNull answer))) /\
     (exists answer, snd by_promise = Some (Normal (Resolved answer))) /\
     length (fetched (fst by_callback)) = (length pages + 1)%nat /\
     length (fetched (fst by_promise)) = (length pages + 1)%nat) /\
  (fails r ->
     is_Some (snd by_callback) /\
     is_Some (snd by_promise) /\
     Z.of_nat (length (fetched (fst by_callback))) = failing_page /\
     Z.of_nat (length (fetched (fst by_promise))) = failing_page).
Proof.
  intros f failing_page r by_callback by_promise Hpages Hne Hfuel. subst f.
  destruct (delivered_pages_continue _ _ Hpages Hne) as [Hcont _].
  assert (forall R (cb : Run W -> JSValue -> option (list JSValue) -> R),
    continues r = false ->
    exists s', doWhilst (round (func osdf query) query namespace) whilst cb fuel
                 (at_head 1 [] w [])
                 = (s', Some (ending cb s' r)) /\
               length (fetched s') = S (length pages)) as Hrun.
  { intros R cb Hstop.
    destruct (helper_stops osdf query namespace cb w (length pages) fuel Hcont Hstop Hfuel)
      as (s' & Hrun & Hlog & _).
    exists s'. split; [exact Hrun|].
    rewrite Hlog, length_zip_with, length_seqZ, transcript_length. lia. }
  subst by_callback by_promise. rewrite <- !helpers_same_run, !callback_helper_loop.
  split.
  - intros (p & Hp & Hempty).
    pose proof (delivered_empty_page_stops _ _ Hp Hempty) as Hstop.
    destruct (Hrun _ report_callback Hstop) as (s1 & E1 & Hn1).
    destruct (Hrun _ report_promise Hstop) as (s2 & E2 & Hn2).
    destruct Hp as [err [Herr Hr]].
    assert (exists answer,
              snd (doWhilst (round (func osdf query) query namespace) whilst report_promise
                     fuel (at_head 1 [] w [])) = Some (Normal (Resolved answer)))
      as [answer Hloop].
    { rewrite E2. cbn [snd]. rewrite Hr. unfold ending, report_promise.
      rewrite Herr. cbn [truthy]. eauto. }
    rewrite (promise_helper_settled osdf query namespace fuel w _ Hloop), E1.
    cbn [fst snd]. rewrite Hr. unfold ending, report_callback. rewrite Herr. cbn [truthy].
    repeat split; eauto; lia.
  - intros Hfails. pose proof (fails_stops _ Hfails) as Hstop.
    destruct (Hrun _ report_callback Hstop) as (s1 & E1 & Hn1).
    destruct (Hrun _ report_promise Hstop) as (s2 & E2 & Hn2).
    rewrite promise_helper_loop, executor_outcome, E1, E2. cbn [fst snd].
    subst failing_page. repeat split; eauto; try lia.
    by destruct (fst (func osdf query query namespace 1 w)).
Qed.

(** C3.  Whatever the operation answers and however long the loop has
    run: the page numbers passed to the single-page operation are
    1, 2, 3, ... in this order, none twice, none skipped; the replies
    recorded are the ones the operation gave to these calls; and a call
    is followed by another one only if it delivered, without error, a
    page with at least one result.  Both helpers make the same calls. *)
Theorem pages_requested_in_sequence {W : Type} (osdf : Osdf W)
    (query : Query) (namespace : string) (fuel : nat) (w : W) :
  let log := fetched (fst (make_query_all_callback_helper query namespace osdf fuel w)) in
  fetched (fst (make_query_all_promise_helper query namespace osdf fuel w)) = log /\
  log.*1 = seqZ 1 (Z.of_nat (length log)) /\
  NoDup (log.*1) /\
  log.*2 = transcript (func osdf query) query namespace w 1 (length log) /\
  forall (i : nat) (n n' : Z) (r r' : Reply),
    log !! i = Some (n, r) ->
    log !! S i = Some (n', r') ->
    n' = n + 1 /\
    exists err p, r = CallsBack err (Some p) /\ truthy err = false /\ results p <> [].
Proof.
  intros log. subst log. rewrite <- helpers_same_run, callback_helper_loop.
  split; [reflexivity|].
  destruct (doWhilst (round (func osdf query) query namespace) whilst report_callback fuel
              (at_head 1 [] w [])) as [s' out] eqn:Hrun.
  apply loop_run in Hrun as (k & _ & Hlog & Hout). cbn [fst app] in *.
  set (rs := transcript (func osdf query) query namespace w 1 k) in *.
  assert (length rs = k) as Hrs by apply transcript_length.
  assert (length (seqZ 1 (Z.of_nat k)) = k) as Hseq by (rewrite length_seqZ; lia).
  assert (length (fetched s') = k) as Hlen by (rewrite Hlog, length_zip_with, Hseq, Hrs; lia).
  rewrite Hlen. rewrite Hlog. split; [|split; [|split]].
  - apply fst_zip. lia.
  - rewrite fst_zip by lia. apply NoDup_seqZ.
  - apply snd_zip. rewrite transcript_length, length_seqZ. lia.
  - intros i n n' r r' Hi HSi.
    apply lookup_zip_with_Some in Hi as (n0 & r0 & Heq & Hn & Hr).
    apply lookup_zip_with_Some in HSi as (n1 & r1 & Heq' & Hn' & Hr').
    injection Heq as -> ->. injection Heq' as -> ->.
    apply lookup_seqZ in Hn as [-> _]. apply lookup_seqZ in Hn' as [-> Hlt].
    split; [lia|].
    assert (continues r0 = true) as C.
    { destruct out as [e|].
      - destruct Hout as (k0 & -> & Hcont & _).
        subst rs. rewrite transcript_snoc in Hr.
        rewrite lookup_app_l in Hr by (rewrite transcript_length; lia).
        by eapply Forall_lookup_1 in Hcont.
      - destruct Hout as [_ Hcont]. by eapply Forall_lookup_1 in Hcont. }
    apply continues_inv in C as [err [p [-> [Herr Hne]]]]. eauto.
Qed.

(** C7, as stated, fails.  The first call of the single-page operation
    throws, as every operation of the client does while [http] is
    [null], before [setup]: in the callback style the exception reaches
    the caller and the callback is never invoked; in the promise style
    the promise is rejected with it. *)
Lemma first_call_throws_styles_differ :
  let before_setup :=
    osdf None "127.0.0.1" 8123 (refusing TypeError) (fun _ => "{}") (fun _ => None) in
  snd (make_query_all_callback_helper some_query "ns" before_setup 1 tt)
    = Some (Throw TypeError) /\
  snd (make_query_all_promise_helper some_query "ns" before_setup 1 tt)
    = Some (Normal (Rejected (JError TypeError))) /\
  ~ same_end (snd (make_query_all_callback_helper some_query "ns" before_setup 1 tt))
             (snd (make_query_all_promise_helper some_query "ns" before_setup 1 tt)).
Proof.
  split; [reflexivity|]. split; [reflexivity|]. intros H. inversion H.
Qed.

(** The same final functions in the two conventions. *)
Lemma loops_same_end {W : Type} (osdf : Osdf W)
    (query : Query) (namespace : string) (fuel : nat) (w : W) :
  same_end
    (snd (doWhilst (round (func osdf query) query namespace) whilst report_callback fuel
            (at_head 1 [] w [])))
    (snd (doWhilst (round (func osdf query) query namespace) whilst report_promise fuel
            (at_head 1 [] w []))).
Proof.
  destruct (doWhilst_two_callbacks (round (func osdf query) query namespace) whilst
              report_callback report_promise same_outcome) with (fuel := fuel)
              (s := at_head 1 [] w []) as [_ Hout].
  - intros s err H. unfold report_callback, report_promise. rewrite H. constructor.
  - intros s results. cbn. constructor.
  - destruct (snd (doWhilst _ _ report_callback _ _)) as [[c|e]|],
             (snd (doWhilst _ _ report_promise _ _)) as [[c'|e']|];
      try contradiction; try subst; by constructor.
Qed.

(** C7, amended.  The two helpers do the same thing under two
    conventions: same calls, same variables, same world; a callback
    invoked with [(null, final)] where the promise is resolved with
    [final], with [(err, null)] where it is rejected with [err], and an
    exception escaping from the one where it escapes from the other.
    One case apart: when the first call of the single-page operation
    throws before it returns, the exception reaches the caller in the
    callback style and rejects the promise in the other. *)
Theorem callback_and_promise_agree {W : Type} (osdf : Osdf W)
    (query : Query) (namespace : string) (fuel : nat) (w : W) :
  fst (make_query_all_callback_helper query namespace osdf fuel w) =
  fst (make_query_all_promise_helper query namespace osdf fuel w) /\
  match fuel, fst (func osdf query query namespace 1 w) with
  | S _, Throws e =>
      snd (make_query_all_callback_helper query namespace osdf fuel w) = Some (Throw e) /\
      snd (make_query_all_promise_helper query namespace osdf fuel w)
        = Some (Normal (Rejected (JError e)))
  | _, _ =>
      same_end (snd (make_query_all_callback_helper query namespace osdf fuel w))
               (snd (make_query_all_promise_helper query namespace osdf fuel w))
  end.
Proof.
  split; [apply helpers_same_run|].
  pose proof (loops_same_end osdf query namespace fuel w) as Hsame.
  rewrite callback_helper_loop.
  destruct fuel as [|fuel].
  - rewrite promise_helper_loop, executor_outcome. cbn [doWhilst snd].
    destruct (fst (func osdf query query namespace 1 w)); constructor.
  - destruct (fst (func osdf query query namespace 1 w)) as [err page_result|e|e] eqn:E.
    + rewrite promise_helper_not_thrown; [exact Hsame | by rewrite E].
    + rewrite promise_helper_not_thrown; [exact Hsame | by rewrite E].
    + rewrite promise_helper_loop, executor_outcome, E.
      rewrite !(loop_first_throws osdf query namespace _ fuel w e E). done.
Qed.

(** ** Operations that answer each page number always the same way *)

Section Deterministic.
Context {W R : Type}.
Variable f : FetchOp W.
Variable query : Query.
Variable namespace : string.
Variable callback : Run W -> JSValue -> option (list JSValue) -> R.
Hypothesis f_deterministic : deterministic f query namespace.
Hypothesis callback_reads_vars :
  forall s s' err results, vars s = vars s' -> callback s err results = callback s' err results.

(** Two runs that start with the same variables and the same calls
    behind them go on the same way, whatever the worlds. *)
Lemma loop_deterministic (fuel : nat) : forall s1 s2,
  vars s1 = vars s2 ->
  fetched s1 = fetched s2 ->
  vars (fst (doWhilst (round f query namespace) whilst callback fuel s1)) =
  vars (fst (doWhilst (round f query namespace) whilst callback fuel s2)) /\
  fetched (fst (doWhilst (round f query namespace) whilst callback fuel s1)) =
  fetched (fst (doWhilst (round f query namespace) whilst callback fuel s2)) /\
  snd (doWhilst (round f query namespace) whilst callback fuel s1) =
  snd (doWhilst (round f query namespace) whilst callback fuel s2).
Proof.
  induction fuel as [|fuel IH]; intros s1 s2 Hv Hl; [by cbn|].
  cbn [doWhilst].
  destruct (round f query namespace s1) as [t1 o1] eqn:E1.
  destruct (round f query namespace s2) as [t2 o2] eqn:E2.
  assert (vars t1 = vars t2 /\ fetched t1 = fetched t2 /\ o1 = o2) as (Hv' & Hl' & ->).
  { unfold round in E1, E2. rewrite <- Hv, <- Hl in E2.
    pose proof (f_deterministic (page (vars s1)) (world s1) (world s2)) as Hd.
    destruct (f query namespace (page (vars s1)) (world s1)) as [r w1].
    destruct (f query namespace (page (vars s1)) (world s2)) as [r' w2].
    cbn [fst] in Hd. subst r'.
    destruct r as [err page_result|e|e].
    - destruct (on_page (vars s1) err page_result) as [v cb].
      injection E1 as <- <-. injection E2 as <- <-. by cbn.
    - injection E1 as <- <-. injection E2 as <- <-. by cbn.
    - injection E1 as <- <-. injection E2 as <- <-. by cbn. }
  destruct o2 as [[err results]|e]; [|by cbn].
  destruct (truthy err).
  - cbn. repeat split; auto. f_equal. f_equal. by apply callback_reads_vars.
  - assert (whilst t1 results = whilst t2 results) as ->
      by (unfold whilst; by rewrite Hv').
    destruct (whilst t2 results).
    + by apply IH.
    + cbn. repeat split; auto. f_equal. f_equal. by apply callback_reads_vars.
Qed.
End Deterministic.

(** C8.  With an operation that answers each page number always the same
    way, whatever state the world is in, two invocations of the
    aggregation for the same query end the same way: with the same fuel
    the outcomes are equal, and two outcomes reached with any fuel are
    equal, in both styles. *)
Theorem aggregation_deterministic {W : Type} (osdf : Osdf W)
    (query : Query) (namespace : string) (fuel fuel' : nat) (w w' : W) :
  deterministic (func osdf query) query namespace ->
  (snd (make_query_all_callback_helper query namespace osdf fuel w) =
   snd (make_query_all_callback_helper query namespace osdf fuel w') /\
   snd (make_query_all_promise_helper query namespace osdf fuel w) =
   snd (make_query_all_promise_helper query namespace osdf fuel w')) /\
  (forall c c',
     snd (make_query_all_callback_helper query namespace osdf fuel w) = Some c ->
     snd (make_query_all_callback_helper query namespace osdf fuel' w') = Some c' ->
     c = c') /\
  (forall c c',
     snd (make_query_all_promise_helper query namespace osdf fuel w) = Some c ->
     snd (make_query_all_promise_helper query namespace osdf fuel' w') = Some c' ->
     c = c').
Proof.
  intros Hdet. rewrite !callback_helper_loop, !promise_helper_loop, !executor_outcome.
  rewrite <- (Hdet 1 w w').
  assert (forall R (cb : Run W -> JSValue -> option (list JSValue) -> R),
    (forall s s' err results, vars s = vars s' -> cb s err results = cb s' err results) ->
    forall n,
      snd (doWhilst (round (func osdf query) query namespace) whilst cb n (at_head 1 [] w [])) =
      snd (doWhilst (round (func osdf query) query namespace) whilst cb n (at_head 1 [] w' [])))
    as Hsame.
  { intros R cb Hcb n.
    by destruct (loop_deterministic _ query namespace cb Hdet Hcb n
                   (at_head 1 [] w []) (at_head 1 [] w' [])) as (_ & _ & H). }
  assert (forall R (cb : Run W -> JSValue -> option (list JSValue) -> R),
    (forall s s' err results, vars s = vars s' -> cb s err results = cb s' err results) ->
    forall c c',
      snd (doWhilst (round (func osdf query) query namespace) whilst cb fuel
             (at_head 1 [] w [])) = Some c ->
      snd (doWhilst (round (func osdf query) query namespace) whilst cb fuel'
             (at_head 1 [] w' [])) = Some c' ->
      c = c') as Hany.
  { intros R cb Hcb c c' H1 H2.
    destruct (doWhilst _ _ cb fuel _) as [s1 o1] eqn:E1.
    destruct (doWhilst _ _ cb fuel' _) as [s2 o2] eqn:E2.
    cbn [snd] in H1, H2. subst o1 o2.
    apply (doWhilst_more_fuel _ _ _ _ fuel') in E1.
    apply (doWhilst_more_fuel _ _ _ _ fuel) in E2.
    rewrite (Nat.add_comm fuel' fuel) in E2.
    pose proof (Hsame R cb Hcb (fuel + fuel')%nat) as H.
    rewrite E1, E2 in H. cbn [snd] in H. congruence. }
  assert (forall (s s' : Run W) err (results : option (list JSValue)),
    vars s = vars s' -> report_callback s err results = report_callback s' err results) as Hc
    by (intros s s' err results H; unfold report_callback; by rewrite H).
  assert (forall (s s' : Run W) err (results : option (list JSValue)),
    vars s = vars s' -> report_promise s err results = report_promise s' err results) as Hp
    by (intros s s' err results H; unfold report_promise; by rewrite H).
  split; [split; [by apply Hsame | by rewrite (Hsame _ report_promise Hp)]|].
  split; [by apply Hany|].
  intros c c'.
  destruct (fst (func osdf query query namespace 1 w)) as [err page_result|e|e];
    try (by apply Hany).
  destruct (snd (doWhilst _ _ report_promise fuel _)), (snd (doWhilst _ _ report_promise fuel' _));
    congruence.
Qed.

(** ** Errors that are not truthy *)

(** The error the client's own single-page operations report for such a
    response is the empty string, with [null] for the page. *)
Lemma empty_reason_reported (this_auth : option string) (this_host : string) (this_port : Z)
    (JSON_stringify : list (string * JSValue) -> string)
    (JSON_parse : string -> option (option Page))
    (query : Query) (namespace : string) (n : Z) :
  let osdf := osdf this_auth this_host this_port (responding empty_reason)
                JSON_stringify JSON_parse in
  fst (query_page osdf query namespace n tt) = CallsBack (JStr "") None /\
  fst (oql_query_page osdf query namespace n tt) = CallsBack (JStr "") None.
Proof. split; reflexivity. Qed.

(** C2.  The code does not do what the claim says.  The fetch of page 1
    fails with the error [''] (the empty string), which is what the
    client's own [query_page] reports for a response [500] without
    [x-osdf-error] header and with an empty reason phrase: the
    aggregation does not fail with that error; the handler takes it for
    no error, reads [page_result['results']] on [null], and a TypeError
    escapes, in both styles, the callback never invoked and the promise
    never settled. *)
Lemma falsy_error_not_propagated :
  let failing := {| oql_query_page := always (CallsBack (JStr "") None);
                    query_page := always (CallsBack (JStr "") None) |} in
  let client :=
    osdf None "127.0.0.1" 8123 (responding empty_reason) (fun _ => "{}") (fun _ => None) in
  fetched (fst (make_query_all_callback_helper (ES []) "ns" failing 1 tt))
    = [(1, CallsBack (JStr "") None)] /\
  snd (make_query_all_callback_helper (ES []) "ns" failing 1 tt) = Some (Throw TypeError) /\
  snd (make_query_all_promise_helper (ES []) "ns" failing 1 tt) = Some (Throw TypeError) /\
  fetched (fst (make_query_all_callback_helper some_query "ns" client 1 tt))
    = [(1, CallsBack (JStr "") None)] /\
  snd (make_query_all_callback_helper some_query "ns" client 1 tt) = Some (Throw TypeError) /\
  snd (make_query_all_promise_helper some_query "ns" client 1 tt) = Some (Throw TypeError).
Proof. repeat split; reflexivity. Qed.

(** What the code does of C2.  If the call for some page [n] is answered
    with a truthy [err], the aggregation fails with this very value: the
    callback is invoked with [(err, null)], the promise is rejected with
    [err]; nothing of the results accumulated so far is handed over; and
    this call, the [n]-th, is the last one made. *)
Lemma truthy_error_propagates {W : Type} (osdf : Osdf W)
    (query : Query) (namespace : string) (fuel : nat) (w : W)
    (i : nat) (n : Z) (err : JSValue) (page_result : option Page) :
  fetched (fst (make_query_all_callback_helper query namespace osdf fuel w)) !! i
    = Some (n, CallsBack err page_result) ->
  truthy err = true ->
  snd (make_query_all_callback_helper query namespace osdf fuel w)
    = Some (Normal (Invoked err JNull)) /\
  snd (make_query_all_promise_helper query namespace osdf fuel w)
    = Some (Normal (Rejected err)) /\
  n = Z.of_nat (S i) /\
  length (fetched (fst (make_query_all_callback_helper query namespace osdf fuel w))) = S i /\
  length (fetched (fst (make_query_all_promise_helper query namespace osdf fuel w))) = S i.
Proof.
  intros Hi Herr. rewrite <- helpers_same_run. rewrite callback_helper_loop in *.
  destruct (doWhilst (round (func osdf query) query namespace) whilst report_callback fuel
              (at_head 1 [] w [])) as [s1 o1] eqn:E1.
  destruct (doWhilst (round (func osdf query) query namespace) whilst report_promise fuel
              (at_head 1 [] w [])) as [s2 o2] eqn:E2.
  assert (s1 = s2) as <-.
  { pose proof (doWhilst_two_callbacks (round (func osdf query) query namespace) whilst
                  report_callback report_promise (fun _ _ => True)
                  (fun _ _ _ => I) (fun _ _ => I) fuel (at_head 1 [] w [])) as [H _].
    by rewrite E1, E2 in H. }
  cbn [fst snd] in *.
  destruct (loop_truthy_error _ _ _ _ fuel 1 [] w [] s1 o1 i n err page_result E1 Hi Herr)
    as (-> & -> & Hlen).
  destruct (loop_truthy_error _ _ _ _ fuel 1 [] w [] s1 o2 i _ err page_result E2 Hi Herr)
    as (-> & _ & _).
  assert (snd (doWhilst (round (func osdf query) query namespace) whilst report_promise fuel
                 (at_head 1 [] w [])) = Some (Normal (report_promise s1 err None))) as Hloop
    by (by rewrite E2).
  rewrite (promise_helper_settled osdf query namespace fuel w _ Hloop), E2. cbn [snd].
  unfold report_callback, report_promise. rewrite Herr.
  cbn [length Nat.add] in Hlen. repeat split; solve [lia | exact Hlen].
Qed.

(** ** Which operation a helper calls *)

(** C5, as stated, fails.  Given one and the same [osdf] object, whose
    operations do not even look at the query, a helper calls one
    operation for a string and the other one for an object: the choice
    is made inside the helper, by a test on the query. *)
Lemma helper_branches_on_query :
  ignores_query (oql_query_page probe) /\
  ignores_query (query_page probe) /\
  snd (make_query_all_callback_helper (OQL "q") "ns" probe 1 tt)
    = Some (Normal (Invoked (JStr "oql_query_page") JNull)) /\
  snd (make_query_all_callback_helper (ES []) "ns" probe 1 tt)
    = Some (Normal (Invoked (JStr "query_page") JNull)) /\
  snd (make_query_all_promise_helper (OQL "q") "ns" probe 1 tt)
    = Some (Normal (Rejected (JStr "oql_query_page"))) /\
  snd (make_query_all_promise_helper (ES []) "ns" probe 1 tt)
    = Some (Normal (Rejected (JStr "query_page"))) /\
  snd (make_query_all_callback_helper (OQL "q") "ns" probe 1 tt) <>
  snd (make_query_all_callback_helper (ES []) "ns" probe 1 tt).
Proof. repeat split; try reflexivity. discriminate. Qed.

(** The two public functions are one and the same: which of them the
    caller picks does not select the dialect. *)
Lemma query_all_is_oql_query_all {W : Type}
    (this_auth : option string) (this_host : string) (this_port : Z)
    (http : Options -> option string -> W -> Requested * W)
    (JSON_stringify : list (string * JSValue) -> string)
    (JSON_parse : string -> option (option Page)) :
  query_all_callback this_auth this_host this_port http JSON_stringify JSON_parse =
  oql_query_all_callback this_auth this_host this_port http JSON_stringify JSON_parse /\
  query_all_promise this_auth this_host this_port http JSON_stringify JSON_parse =
  oql_query_all_promise this_auth this_host this_port http JSON_stringify JSON_parse.
Proof. split; reflexivity. Qed.

(** The loop depends on its iteratee only through what it returns. *)
Lemma doWhilst_ext {S R : Type} (iteratee iteratee' : S -> S * Exc Next)
    (test : S -> option (list JSValue) -> bool)
    (callback : S -> JSValue -> option (list JSValue) -> R) :
  (forall s, iteratee s = iteratee' s) ->
  forall fuel s, doWhilst iteratee test callback fuel s = doWhilst iteratee' test callback fuel s.
Proof.
  intros Hext fuel. induction fuel as [|fuel IH]; intros s; [reflexivity|].
  cbn [doWhilst]. rewrite <- Hext.
  destruct (iteratee s) as [s1 [[err results]|e]]; [|reflexivity].
  destruct (truthy err); [reflexivity|].
  destruct (test s1 results); [apply IH | reflexivity].
Qed.

(** C5, amended.  One loop serves both dialects, through the one
    signature of a single-page operation; the helper is given the [osdf]
    object and chooses itself, by a test on the query, which of its two
    operations to call: [oql_query_page] for a string, [query_page]
    otherwise.  That choice apart, the aggregation depends on the query
    only through what the chosen operation answers. *)
Theorem helper_selects_operation {W : Type} (osdf : Osdf W)
    (query : Query) (namespace : string) (fuel : nat) (w : W) :
  let selected := if isString query then oql_query_page osdf else query_page osdf in
  make_query_all_callback_helper query namespace osdf fuel w =
    doWhilst (round selected query namespace) whilst report_callback fuel (start w) /\
  make_query_all_promise_helper query namespace osdf fuel w =
    executor (fst (selected query namespace 1 w))
      (doWhilst (round selected query namespace) whilst report_promise fuel (start w)) /\
  forall (osdf' : Osdf W) (query' : Query) (namespace' : string),
    (forall n w0, func osdf query query namespace n w0 =
                  func osdf' query' query' namespace' n w0) ->
    make_query_all_callback_helper query namespace osdf fuel w =
    make_query_all_callback_helper query' namespace' osdf' fuel w /\
    make_query_all_promise_helper query namespace osdf fuel w =
    make_query_all_promise_helper query' namespace' osdf' fuel w.
Proof.
  intros selected. split; [reflexivity|]. split; [reflexivity|].
  intros osdf' query' namespace' Hext.
  rewrite !callback_helper_loop, !promise_helper_loop, <- (Hext 1 w).
  assert (forall s, round (func osdf query) query namespace s =
                    round (func osdf' query') query' namespace' s) as Hround
    by (intros s; unfold round; by rewrite Hext).
  split; [by apply doWhilst_ext | f_equal; by apply doWhilst_ext].
Qed.

(** ** Decoding a response *)

(** The error value, spelled out: the [x-osdf-error] header when the
    response has one, otherwise its [statusMessage] when it has one,
    otherwise its status code. *)
Lemma error_value_precedence (response : Response) :
  match headers response !! "x-osdf-error" with
  | Some message => error_value response = JStr message
  | None =>
      match statusMessage response with
      | Some message => error_value response = JStr message
      | None => error_value response = JNum (statusCode response)
      end
  end.
Proof.
  unfold error_value. destruct (headers response !! "x-osdf-error"); [reflexivity|].
  by destruct (statusMessage response).
Qed.

(** The test [statusCode >= 200 && statusCode < 300]. *)
Lemma status_2xx (response : Response) :
  (200 <=? statusCode response) && (statusCode response <? 300) = true <->
  200 <= statusCode response < 300.
Proof. rewrite andb_true_iff, Z.leb_le, Z.ltb_lt. reflexivity. Qed.

(** C9, as stated, fails.  The status code 204 is in [200, 300), but the
    empty body is not a JSON text: [JSON.parse] throws, the callback is
    never invoked and the promise never settled. *)
Lemma empty_body_not_decoded :
  get_helper_callback JSON.parse (ResponseEvent no_content) = Throw SyntaxError /\
  get_helper_promise JSON.parse (ResponseEvent no_content) = Throw SyntaxError /\
  query_helper_callback JSON.parse (ResponseEvent no_content) = Throw SyntaxError /\
  query_helper_promise JSON.parse (ResponseEvent no_content) = Throw SyntaxError.
Proof. repeat split; reflexivity. Qed.

(** C9, amended.  For every operation that parses the body of its
    response (the GET operations and the query operations, among them
    [query_page] and [oql_query_page]): a response with a status code in
    [200, 300) whose body is a JSON text yields success with the parsed
    body; a response with any other status code yields the error value
    chosen by the precedence header, status message, status code; and in
    the callback style the data is [null] with every error, that of a
    failed request included. *)
Theorem decoded_response {W T : Type}
    (this_auth : option string) (this_host : string) (this_port : Z)
    (http : Options -> option string -> W -> Requested * W)
    (JSON_stringify : list (string * JSValue) -> string)
    (JSON_parse : string -> option T)
    (op : Api.Operation) (w w' : W) (ev : HttpEvent) :
  http (options this_auth this_host this_port op)
       (request_body JSON_stringify <$> Api.written op) w = (Made ev, w') ->
  let by_callback :=
    fst (call_with_callback this_auth this_host this_port http JSON_stringify JSON_parse op w) in
  let by_promise :=
    fst (call_with_promise this_auth this_host this_port http JSON_stringify JSON_parse op w) in
  match ev with
  | ErrorEvent err =>
      by_callback = Normal (Invoked err None) /\ by_promise = Normal (Rejected err)
  | ResponseEvent response =>
      (200 <= statusCode response < 300 ->
         forall parsed, JSON_parse (body_of response) = Some parsed ->
           by_callback = Normal (Invoked JNull (Some parsed)) /\
           by_promise = Normal (Resolved parsed)) /\
      (~ 200 <= statusCode response < 300 ->
         exists err,
           by_callback = Normal (Invoked err None) /\
           by_promise = Normal (Rejected err) /\
           match headers response !! "x-osdf-error" with
           | Some message => err = JStr message
           | None =>
               match statusMessage response with
               | Some message => err = JStr message
               | None => err = JNum (statusCode response)
               end
           end)
  end.
Proof.
  intros Hhttp by_callback by_promise.
  assert (by_callback = get_helper_callback JSON_parse ev /\
          by_promise = get_helper_promise JSON_parse ev) as [-> ->].
  { subst by_callback by_promise. unfold call_with_callback, call_with_promise.
    destruct (Api.written op) as [query|]; cbn [fmap option_fmap option_map] in Hhttp;
      rewrite Hhttp; split; reflexivity. }
  destruct ev as [err|response]; cbn [get_helper_callback get_helper_promise];
    [split; reflexivity|].
  unfold make_regular_cb, make_promise_cb. split.
  - intros Hok parsed Hparsed. apply status_2xx in Hok. rewrite Hok, Hparsed. by split.
  - intros Hnot. rewrite <- status_2xx in Hnot. apply not_true_is_false in Hnot.
    rewrite Hnot. exists (error_value response).
    split; [reflexivity|]. split; [reflexivity|]. apply error_value_precedence.
Qed.

(** ** insert_node *)

(** [split] on its own: never empty, the whole string when the
    separator does not occur, and the pieces of both sides at an
    occurrence of the separator. *)
Lemma split_not_empty sep s : split sep s <> [].
Proof.
  destruct s as [|c rest]; cbn [split]; [done|].
  destruct (Ascii.eqb c sep); [done|]. by destruct (split sep rest).
Qed.

Lemma split_without_separator sep s : occurs sep s = false -> split sep s = [s].
Proof.
  induction s as [|c rest IH]; cbn [split occurs]; [done|].
  intros H. apply orb_false_iff in H as [Hc Hrest].
  rewrite Hc, IH by exact Hrest. reflexivity.
Qed.

Lemma split_at_separator sep a b :
  split sep (a +:+ String sep b) = split sep a ++ split sep b.
Proof.
  induction a as [|c a IH].
  - change (split sep (String sep b) = [EmptyString] ++ split sep b).
    cbn [split app]. by rewrite Ascii.eqb_refl.
  - change (split sep (String c (a +:+ String sep b)) = split sep (String c a) ++ split sep b).
    cbn [split]. destruct (Ascii.eqb c sep); rewrite IH; [reflexivity|].
    pose proof (split_not_empty sep a). by destruct (split sep a).
Qed.

(** The last piece of [s.split('/')] is what follows the last ['/']. *)
Lemma split_last (before after : string) :
  occurs "/" after = false ->
  last (split "/" (before +:+ "/" +:+ after)) = Some after.
Proof.
  intros H. change (before +:+ "/" +:+ after) with (before +:+ String "/" after).
  rewrite split_at_separator, (split_without_separator "/" after) by exact H.
  apply last_snoc.
Qed.

(** C10, as stated, fails.  The server responds with status code 201 and
    [insert_node] does not succeed: without a [location] header
    [location.split] throws a TypeError. *)
Lemma created_without_location_throws :
  insert_node_callback (ResponseEvent created_without_location) = Throw TypeError /\
  insert_node_promise (ResponseEvent created_without_location) = Throw TypeError.
Proof. split; reflexivity. Qed.

(** C10, amended.  [insert_node] succeeds exactly when the server
    responds with status code 201 and the response has a [location]
    header; the node id handed over is then the last piece of
    [location.split('/')], which is what follows the last ['/'] of the
    header; with any other status code the error value is the one the
    other operations would report for the same response. *)
Theorem insert_node_created (response : Response) :
  (forall id : string,
     insert_node_callback (ResponseEvent response) = Normal (Invoked JNull (JStr id)) <->
     statusCode response = 201 /\
     exists location,
       headers response !! "location" = Some location /\
       last (split "/" location) = Some id) /\
  (forall id : string,
     insert_node_promise (ResponseEvent response) = Normal (Resolved (JStr id)) <->
     statusCode response = 201 /\
     exists location,
       headers response !! "location" = Some location /\
       last (split "/" location) = Some id) /\
  (forall before id : string,
     occurs "/" id = false ->
     last (split "/" (before +:+ "/" +:+ id)) = Some id) /\
  (statusCode response <> 201 ->
     insert_node_callback (ResponseEvent response) =
       Normal (Invoked (error_value response) JNull) /\
     insert_node_promise (ResponseEvent response) =
       Normal (Rejected (error_value response))).
Proof.
  unfold insert_node_callback, insert_node_promise, pop.
  destruct (statusCode response =? 201) eqn:Hs;
    [apply Z.eqb_eq in Hs | apply Z.eqb_neq in Hs].
  - destruct (headers response !! "location") as [location|].
    + destruct (last (split "/" location)) as [piece|] eqn:Hlast.
      * split; [|split; [|split]].
        -- intros id. split.
           ++ intros [= <-]. eauto.
           ++ intros [_ (l & [= <-] & Hl)]. congruence.
        -- intros id. split.
           ++ intros [= <-]. eauto.
           ++ intros [_ (l & [= <-] & Hl)]. congruence.
        -- exact split_last.
        -- intros Hne. contradiction.
      * apply last_None in Hlast. by destruct (split_not_empty "/" location).
    + split; [|split; [|split]].
      * intros id. split; [discriminate | by intros [_ (l & [=] & _)]].
      * intros id. split; [discriminate | by intros [_ (l & [=] & _)]].
      * exact split_last.
      * intros Hne. contradiction.
  - split; [|split; [|split]].
    + intros id. split; [discriminate | by intros [? _]].
    + intros id. split; [discriminate | by intros [? _]].
    + exact split_last.
    + intros _. split; reflexivity.
Qed.

(** ** The definitions on concrete inputs *)

Example parse_texts :
  JSON.parse "" = None /\
  JSON.parse " [1, -2.5e3, true, null] "
    = Some (JSON.j_array [JSON.j_number "1"; JSON.j_number "-2.5e3"; JSON.j_true; JSON.j_null]) /\
  JSON.parse (body_of ok_in_two_chunks)
    = Some (JSON.j_object [("ver", JSON.j_number "1"); ("linkage", JSON.j_array [])]) /\
  JSON.parse "[1,]" = None /\
  JSON.parse "01" = None /\
  JSON.parse "<html></html>" = None.
Proof. repeat split; reflexivity. Qed.

Example split_location :
  split "/" "http://127.0.0.1:8123/nodes/5c5d2f"
    = ["http:"; ""; "127.0.0.1:8123"; "nodes"; "5c5d2f"] /\
  pop (split "/" "5c5d2f") = JStr "5c5d2f" /\
  pop (split "/" "nodes/") = JStr "".
Proof. repeat split; reflexivity. Qed.

Example run_three_pages :
  make_query_all_callback_helper some_query "ns" scripted_osdf 5 three_pages =
  ({| vars := {| page := 4; has_next_page := false;
                 all_results := [item_a; item_b; item_c] |};
      world := [];
      fetched := [(1, CallsBack JNull (Some (page_of [item_a; item_b] 1)));
                  (2, CallsBack JNull (Some (page_of [item_c] 2)));
                  (3, CallsBack JNull (Some (page_of [] 3)))] |},
   Some (Normal (Invoked JNull (final [item_a; item_b; item_c])))).
Proof. reflexivity. Qed.

(** The pages [[a, b]], [[c]], [[]] for any items [a], [b], [c] and
    any query. *)
Example run_pages_ab_c (query : Query) (namespace : string) (a b c : JSValue) :
  let pages := [CallsBack JNull (Some (page_of [a; b] 1));
                CallsBack JNull (Some (page_of [c] 2));
                CallsBack JNull (Some (page_of [] 3))] in
  let answer :=
    JObj [("search_result_total", JNum 3); ("result_count", JNum 3);
          ("results", JArr [a; b; c])] in
  snd (make_query_all_callback_helper query namespace scripted_osdf 3 pages)
    = Some (Normal (Invoked JNull answer)) /\
  snd (make_query_all_promise_helper query namespace scripted_osdf 3 pages)
    = Some (Normal (Resolved answer)).
Proof. destruct query; split; reflexivity. Qed.

Example run_page_then_failure :
  make_query_all_promise_helper some_query "ns" scripted_osdf 5 page_then_failure =
  ({| vars := {| page := 2; has_next_page := true; all_results := [item_a; item_b] |};
      world := [CallsBack JNull (Some (page_of [item_c] 3))];
      fetched := [(1, CallsBack JNull (Some (page_of [item_a; item_b] 1)));
                  (2, CallsBack (JStr "Internal Server Error") None)] |},
   Some (Normal (Rejected (JStr "Internal Server Error")))).
Proof. reflexivity. Qed.

Example run_out_of_fuel :
  snd (make_query_all_callback_helper some_query "ns" scripted_osdf 2 three_pages) = None.
Proof. reflexivity. Qed.

(** ** The claims on concrete runs *)

Lemma query_all_concatenates_pages_witness :
  let answer :=
    JObj [("search_result_total", JNum 3); ("result_count", JNum 3);
          ("results", JArr [item_a; item_b; item_c])] in
  snd (make_query_all_callback_helper some_query "ns" scripted_osdf 3 three_pages)
    = Some (Normal (Invoked JNull answer)) /\
  snd (make_query_all_promise_helper some_query "ns" scripted_osdf 3 three_pages)
    = Some (Normal (Resolved answer)) /\
  hasOwnProperty answer "page" = false.
Proof.
  apply (query_all_concatenates_pages scripted_osdf some_query "ns" three_pages
           [page_of [item_a; item_b] 1; page_of [item_c] 2] (page_of [] 3) 3).
  - repeat constructor; exists JNull; split; reflexivity.
  - repeat constructor; discriminate.
  - reflexivity.
  - simpl. lia.
Defined.

Lemma first_page_empty_witness :
  let answer :=
    JObj [("search_result_total", JNum 0); ("result_count", JNum 0); ("results", JArr [])] in
  let empty_then_c :=
    [CallsBack JNull (Some (page_of [] 1)); CallsBack JNull (Some (page_of [item_c] 2))] in
  let by_callback := make_query_all_callback_helper some_query "ns" scripted_osdf 1 empty_then_c in
  let by_promise := make_query_all_promise_helper some_query "ns" scripted_osdf 1 empty_then_c in
  snd by_callback = Some (Normal (Invoked JNull answer)) /\
  snd by_promise = Some (Normal (Resolved answer)) /\
  length (fetched (fst by_callback)) = 1%nat /\
  length (fetched (fst by_promise)) = 1%nat /\
  fetched (fst by_callback) = [(1, CallsBack JNull (Some (page_of [] 1)))] /\
  fetched (fst by_promise) = [(1, CallsBack JNull (Some (page_of [] 1)))] /\
  world (fst by_callback) = [CallsBack JNull (Some (page_of [item_c] 2))] /\
  world (fst by_promise) = [CallsBack JNull (Some (page_of [item_c] 2))].
Proof.
  intros answer empty_then_c.
  apply (first_page_empty scripted_osdf some_query "ns" empty_then_c (page_of [] 1) 1).
  - exists JNull. split; reflexivity.
  - reflexivity.
  - lia.
Defined.

Lemma fetch_count_witness :
  length (fetched (fst (make_query_all_callback_helper some_query "ns" scripted_osdf 5
                          three_pages))) = 3%nat /\
  Z.of_nat (length (fetched (fst (make_query_all_callback_helper some_query "ns" scripted_osdf 5
                                    page_then_failure)))) = 2.
Proof.
  split.
  - apply (fetch_count scripted_osdf some_query "ns" three_pages
             [page_of [item_a; item_b] 1; page_of [item_c] 2] 5).
    + repeat constructor; exists JNull; split; reflexivity.
    + repeat constructor; discriminate.
    + simpl. lia.
    + exists (page_of [] 3). split; [exists JNull; split; reflexivity | reflexivity].
  - apply (fetch_count scripted_osdf some_query "ns" page_then_failure
             [page_of [item_a; item_b] 1] 5).
    + repeat constructor; exists JNull; split; reflexivity.
    + repeat constructor; discriminate.
    + simpl. lia.
    + intros p [err [Herr Hreply]]. discriminate Hreply.
Defined.

Lemma pages_requested_in_sequence_witness :
  2 = 1 + 1 /\
  exists err p,
    CallsBack JNull (Some (page_of [item_a; item_b] 1)) = CallsBack err (Some p) /\
    truthy err = false /\ results p <> [].
Proof.
  apply (pages_requested_in_sequence scripted_osdf some_query "ns" 5 three_pages)
    with (i := 0%nat) (r' := CallsBack JNull (Some (page_of [item_c] 2)));
    reflexivity.
Defined.

Lemma truthy_error_propagates_witness :
  snd (make_query_all_callback_helper some_query "ns" scripted_osdf 5 page_then_failure)
    = Some (Normal (Invoked (JStr "Internal Server Error") JNull)) /\
  snd (make_query_all_promise_helper some_query "ns" scripted_osdf 5 page_then_failure)
    = Some (Normal (Rejected (JStr "Internal Server Error"))) /\
  2 = Z.of_nat 2 /\
  length (fetched (fst (make_query_all_callback_helper some_query "ns" scripted_osdf 5
                          page_then_failure))) = 2%nat /\
  length (fetched (fst (make_query_all_promise_helper some_query "ns" scripted_osdf 5
                          page_then_failure))) = 2%nat.
Proof.
  apply (truthy_error_propagates scripted_osdf some_query "ns" 5 page_then_failure
           1 2 (JStr "Internal Server Error") None); reflexivity.
Defined.

Lemma aggregation_deterministic_witness :
  snd (make_query_all_callback_helper some_query "ns" counting_osdf 3 0%nat) =
  snd (make_query_all_callback_helper some_query "ns" counting_osdf 3 7%nat) /\
  snd (make_query_all_promise_helper some_query "ns" counting_osdf 3 0%nat) =
  snd (make_query_all_promise_helper some_query "ns" counting_osdf 3 7%nat).
Proof.
  apply (aggregation_deterministic counting_osdf some_query "ns" 3 4 0%nat 7%nat).
  intros n w w'. reflexivity.
Defined.

Lemma helper_selects_operation_witness :
  make_query_all_callback_helper (OQL "q") "ns" probe 2 tt =
  make_query_all_callback_helper some_query "ns" probe_exchanged 2 tt /\
  make_query_all_promise_helper (OQL "q") "ns" probe 2 tt =
  make_query_all_promise_helper some_query "ns" probe_exchanged 2 tt.
Proof.
  apply (helper_selects_operation probe (OQL "q") "ns" 2 tt).
  intros n w0. reflexivity.
Defined.

Lemma decoded_response_witness :
  let document := JSON.j_object [("ver", JSON.j_number "1"); ("linkage", JSON.j_array [])] in
  (fst (call_with_callback None "127.0.0.1" 8123 (responding ok_in_two_chunks)
          (fun _ => EmptyString) JSON.parse (Api.get_node "abc") tt)
     = Normal (Invoked JNull (Some document)) /\
   fst (call_with_promise None "127.0.0.1" 8123 (responding ok_in_two_chunks)
          (fun _ => EmptyString) JSON.parse (Api.get_node "abc") tt)
     = Normal (Resolved document)) /\
  exists err,
    fst (call_with_callback None "127.0.0.1" 8123 (responding not_found)
           (fun _ => EmptyString) JSON.parse (Api.query_page some_query "ns" 1) tt)
      = Normal (Invoked err None) /\
    fst (call_with_promise None "127.0.0.1" 8123 (responding not_found)
           (fun _ => EmptyString) JSON.parse (Api.query_page some_query "ns" 1) tt)
      = Normal (Rejected err) /\
    err = JStr "No such node".
Proof.
  split.
  - apply (decoded_response None "127.0.0.1" 8123 (responding ok_in_two_chunks)
             (fun _ => EmptyString) JSON.parse (Api.get_node "abc") tt tt
             (ResponseEvent ok_in_two_chunks)).
    + reflexivity.
    + simpl. lia.
    + reflexivity.
  - apply (decoded_response None "127.0.0.1" 8123 (responding not_found)
             (fun _ => EmptyString) JSON.parse (Api.query_page some_query "ns" 1)
             tt tt (ResponseEvent not_found)).
    + reflexivity.
    + simpl. lia.
Defined.

Lemma insert_node_created_witness :
  insert_node_callback (ResponseEvent created) = Normal (Invoked JNull (JStr "5c5d2f")) /\
  insert_node_promise (ResponseEvent created) = Normal (Resolved (JStr "5c5d2f")) /\
  last (split "/" ("http://127.0.0.1:8123/nodes" +:+ "/" +:+ "5c5d2f")) = Some "5c5d2f".
Proof.
  destruct (insert_node_created created) as (Hcallback & Hpromise & Hlast & _).
  split; [|split].
  - apply Hcallback. split; [reflexivity|].
    exists "http://127.0.0.1:8123/nodes/5c5d2f". split; reflexivity.
  - apply Hpromise. split; [reflexivity|].
    exists "http://127.0.0.1:8123/nodes/5c5d2f". split; reflexivity.
  - apply Hlast. reflexivity.
Defined.

(** * Further properties *)

(** ** The error value and the handlers that do not parse *)

(** The error value is a string or a number, never [null] or
    [undefined]. *)
Lemma error_value_not_null (response : Response) :
  error_value response <> JNull /\ error_value response <> JUndefined.
Proof.
  unfold error_value.
  destruct (headers response !! "x-osdf-error"); [done|].
  by destruct (statusMessage response).
Qed.

(** X1.  The error value of a response is falsy, so that a callback
    which tests [if (err)] takes the failure for a success, in exactly
    three cases: the [x-osdf-error] header is the empty string; there is
    no such header and the status message is the empty string; there is
    neither and the status code is 0. *)
Theorem error_value_falsy (response : Response) :
  truthy (error_value response) = false <->
  headers response !! "x-osdf-error" = Some "" \/
  (headers response !! "x-osdf-error" = None /\ statusMessage response = Some "") \/
  (headers response !! "x-osdf-error" = None /\ statusMessage response = None /\
   statusCode response = 0).
Proof.
  unfold error_value.
  destruct (headers response !! "x-osdf-error") as [h|].
  - cbn [truthy]. rewrite negb_false_iff, String.eqb_eq. split.
    + intros ->. by left.
    + intros [[= ->]|[[? _]|[? _]]]; done.
  - destruct (statusMessage response) as [m|].
    + cbn [truthy]. rewrite negb_false_iff, String.eqb_eq. split.
      * intros ->. right. by left.
      * intros [?|[[_ [= ->]]|(_ & ? & _)]]; done.
    + cbn [truthy]. rewrite negb_false_iff, Z.eqb_eq. split.
      * intros ->. right. by right.
      * intros [?|[[_ ?]|(_ & _ & ?)]]; done.
Qed.

(** The proof shared by the handlers that look at the status code
    alone. *)
Local Ltac by_status response :=
  let H := fresh "Hstatus" in
  pose proof (error_value_not_null response) as [? ?];
  lazymatch goal with
  | |- context [statusCode response =? ?code] =>
      destruct (statusCode response =? code) eqn:H;
      [apply Z.eqb_eq in H | apply Z.eqb_neq in H]
  end.

Local Ltac status_handler :=
  split; [|split; [|split; [|split]]];
  [ split; [first [discriminate | congruence | eauto] | first [by intros (? & [= <-] & ?) | by intros (? & ? & _)]]
  | split; [first [discriminate | eauto] | first [by intros (? & [= <-] & ?) | by intros (? & ? & _)]]
  | first [by intros ? [[= <-] ?] | by intros ? [? _]]
  | first [done | by intros ? [= <-]]
  | done ].

(** X2.  A deletion ([delete_aux_schema], [delete_node],
    [delete_schema]) succeeds exactly when the response has status code
    204: any other response, a 200 among them, is reported with its
    error value, and the callback then gets no second argument, while
    after an ['error'] event of the request it gets [null].  The
    handler throws in no case. *)
Theorem deletion_succeeds_on_204 (ev : HttpEvent) :
  (deletion_helper_callback ev = Normal (Invoked JNull JUndefined) <->
   exists response, ev = ResponseEvent response /\ statusCode response = 204) /\
  (deletion_helper_promise ev = Normal (Resolved JUndefined) <->
   exists response, ev = ResponseEvent response /\ statusCode response = 204) /\
  (forall response, ev = ResponseEvent response /\ statusCode response <> 204 ->
     deletion_helper_callback ev = Normal (Invoked (error_value response) JUndefined) /\
     deletion_helper_promise ev = Normal (Rejected (error_value response))) /\
  (forall err, ev = ErrorEvent err ->
     deletion_helper_callback ev = Normal (Invoked err JNull) /\
     deletion_helper_promise ev = Normal (Rejected err)) /\
  (forall e, deletion_helper_callback ev <> Throw e /\ deletion_helper_promise ev <> Throw e).
Proof.
  destruct ev as [err|response]; cbn [deletion_helper_callback deletion_helper_promise];
    [|by_status response]; status_handler.
Qed.

(** X3.  An edit ([edit_aux_schema], [edit_node], [edit_schema])
    succeeds exactly when the response has status code 200; a 201 or a
    204 is reported as an error like any other status code.  The
    callback gets no second argument after a response and [null] after
    an ['error'] event.  The handler throws in no case. *)
Theorem edit_succeeds_on_200 (ev : HttpEvent) :
  (edit_callback ev = Normal (Invoked JNull JUndefined) <->
   exists response, ev = ResponseEvent response /\ statusCode response = 200) /\
  (edit_promise ev = Normal (Resolved JUndefined) <->
   exists response, ev = ResponseEvent response /\ statusCode response = 200) /\
  (forall response, ev = ResponseEvent response /\ statusCode response <> 200 ->
     edit_callback ev = Normal (Invoked (error_value response) JUndefined) /\
     edit_promise ev = Normal (Rejected (error_value response))) /\
  (forall err, ev = ErrorEvent err ->
     edit_callback ev = Normal (Invoked err JNull) /\
     edit_promise ev = Normal (Rejected err)) /\
  (forall e, edit_callback ev <> Throw e /\ edit_promise ev <> Throw e).
Proof.
  destruct ev as [err|response]; cbn [edit_callback edit_promise];
    [|by_status response]; status_handler.
Qed.

(** X4.  The insertion of a schema ([insert_schema],
    [insert_aux_schema]) succeeds exactly when the response has status
    code 201, without looking at any header; every failure hands [null]
    to the callback as its second argument.  The handler throws in no
    case. *)
Theorem insertion_succeeds_on_201 (ev : HttpEvent) :
  (insertion_helper_callback ev = Normal (Invoked JNull JUndefined) <->
   exists response, ev = ResponseEvent response /\ statusCode response = 201) /\
  (insertion_helper_promise ev = Normal (Resolved JUndefined) <->
   exists response, ev = ResponseEvent response /\ statusCode response = 201) /\
  (forall response, ev = ResponseEvent response /\ statusCode response <> 201 ->
     insertion_helper_callback ev = Normal (Invoked (error_value response) JNull) /\
     insertion_helper_promise ev = Normal (Rejected (error_value response))) /\
  (forall err, ev = ErrorEvent err ->
     insertion_helper_callback ev = Normal (Invoked err JNull) /\
     insertion_helper_promise ev = Normal (Rejected err)) /\
  (forall e, insertion_helper_callback ev <> Throw e /\ insertion_helper_promise ev <> Throw e).
Proof.
  destruct ev as [err|response]; cbn [insertion_helper_callback insertion_helper_promise];
    [|by_status response]; status_handler.
Qed.

(** X5.  [validate_node] hands over the body of the response, as the
    text it is and unparsed, exactly when the status code is 200 or 422
    (a node that does not validate is a success, not an error); any
    other response is reported with its error value and [null].  No
    body, however malformed, makes the handler throw. *)
Theorem validate_node_hands_over_body (ev : HttpEvent) :
  (forall text : string,
     validate_node_callback ev = Normal (Invoked JNull (JStr text)) <->
     exists response, ev = ResponseEvent response /\
       (statusCode response = 200 \/ statusCode response = 422) /\
       text = body_of response) /\
  (forall text : string,
     validate_node_promise ev = Normal (Resolved (JStr text)) <->
     exists response, ev = ResponseEvent response /\
       (statusCode response = 200 \/ statusCode response = 422) /\
       text = body_of response) /\
  (forall response,
     ev = ResponseEvent response /\ statusCode response <> 200 /\ statusCode response <> 422 ->
     validate_node_callback ev = Normal (Invoked (error_value response) JNull) /\
     validate_node_promise ev = Normal (Rejected (error_value response))) /\
  (forall e, validate_node_callback ev <> Throw e /\ validate_node_promise ev <> Throw e).
Proof.
  destruct ev as [err|response]; cbn [validate_node_callback validate_node_promise].
  - split; [|split; [|split]]; [| |by intros ? [? _]|done];
      intros text; (split; [discriminate | by intros (? & ? & _)]).
  - destruct ((statusCode response =? 422) || (statusCode response =? 200)) eqn:Hs.
    + apply orb_true_iff in Hs. rewrite !Z.eqb_eq in Hs.
      split; [|split; [|split]]; [| | |done].
      * intros text. split; [intros [= <-]; exists response; tauto|].
        by intros (? & [= <-] & _ & ->).
      * intros text. split; [intros [= <-]; exists response; tauto|].
        by intros (? & [= <-] & _ & ->).
      * intros ? ([= <-] & ? & ?). lia.
    + apply orb_false_iff in Hs. rewrite !Z.eqb_neq in Hs.
      split; [|split; [|split]]; [| | |done].
      * intros text. split; [discriminate | intros (? & [= <-] & ? & _); lia].
      * intros text. split; [discriminate | intros (? & [= <-] & ? & _); lia].
      * by intros ? ([= <-] & _).
Qed.

(** The handler of [insert_node] throws in one case only: the response
    has status code 201 and no [location] header; the exception is then
    a TypeError.  On every event that is not a 201 response it calls
    back, or rejects, exactly as the insertion of a schema does. *)
Lemma insert_node_handler_throws (ev : HttpEvent) :
  (forall e, insert_node_callback ev = Throw e <->
     e = TypeError /\
     exists response, ev = ResponseEvent response /\ statusCode response = 201 /\
       headers response !! "location" = None) /\
  (forall e, insert_node_promise ev = Throw e <->
     e = TypeError /\
     exists response, ev = ResponseEvent response /\ statusCode response = 201 /\
       headers response !! "location" = None) /\
  ((forall response, ev = ResponseEvent response -> statusCode response <> 201) ->
     insert_node_callback ev = insertion_helper_callback ev /\
     insert_node_promise ev = insertion_helper_promise ev).
Proof.
  destruct ev as [err|response];
    cbn [insert_node_callback insert_node_promise
         insertion_helper_callback insertion_helper_promise].
  - split; [|split]; [| |done];
      intros e; (split; [discriminate | by intros (_ & ? & ? & _)]).
  - destruct (statusCode response =? 201) eqn:Hs;
      [apply Z.eqb_eq in Hs | apply Z.eqb_neq in Hs].
    + destruct (headers response !! "location") as [location|] eqn:Hl.
      * split; [|split]; [| |intros H; by destruct (H response eq_refl)];
          intros e; (split; [discriminate|]);
          intros (_ & ? & [= <-] & _ & ?); congruence.
      * split; [|split]; [| |intros H; by destruct (H response eq_refl)];
          intros e; (split; [intros [= <-]; split; [done|]; by exists response|]);
          by intros (-> & _).
    + split; [|split]; [| |done];
        intros e; (split; [discriminate|]); by intros (_ & ? & [= <-] & ? & _).
Qed.

(** X6.  Called with a callback, [insert_node] throws in two cases and
    no other: [http.request] throws, and the exception reaches the
    caller; or the request is made and ends with a response that has
    status code 201 and no [location] header, and a TypeError escapes
    from the handler.  Called without a callback it throws in the second
    case only: what [http.request] throws rejects the promise.  On every
    event that is not a 201 response the handler calls back, or rejects,
    exactly as the insertion of a schema does. *)
Theorem insert_node_throws {W : Type}
    (this_auth : option string) (this_host : string) (this_port : Z)
    (http : Options -> option string -> W -> Requested * W)
    (JSON_stringify : list (string * JSValue) -> string)
    (node_data : Command.Document) (w : W) :
  let requested :=
    fst (http (command_options this_auth this_host this_port (Command.insert_node node_data))
           (Some (JSON_stringify node_data)) w) in
  let by_callback :=
    fst (command_with_callback this_auth this_host this_port http JSON_stringify
           (Command.insert_node node_data) w) in
  let by_promise :=
    fst (command_with_promise this_auth this_host this_port http JSON_stringify
           (Command.insert_node node_data) w) in
  let created_without_location (e : Exn) :=
    e = TypeError /\
    exists response, requested = Made (ResponseEvent response) /\
      statusCode response = 201 /\ headers response !! "location" = None in
  (forall e, by_callback = Throw e <-> requested = Refused e \/ created_without_location e) /\
  (forall e, by_promise = Throw e <-> created_without_location e) /\
  (forall e, requested = Refused e -> by_promise = Normal (Rejected (JError e))) /\
  (forall ev,
     (forall response, ev = ResponseEvent response -> statusCode response <> 201) ->
     insert_node_callback ev = insertion_helper_callback ev /\
     insert_node_promise ev = insertion_helper_promise ev).
Proof.
  intros requested by_callback by_promise created_without_location.
  subst by_callback by_promise created_without_location.
  unfold command_with_callback, command_with_promise.
  cbn [Command.written fmap option_fmap option_map].
  fold requested.
  destruct (http _ _ w) as [r w'] eqn:E. subst requested. cbn [fst].
  split; [|split; [|split]].
  - intros e. destruct r as [e0|ev]; cbn [Command.answer_callback].
    + split; [intros [= ->]; by left|].
      intros [[= ->]|(_ & ? & ? & _)]; done.
    + destruct (insert_node_handler_throws ev) as (Hcb & _ & _).
      rewrite Hcb. split.
      * intros (-> & response & -> & ? & ?). right. split; [done|]. by exists response.
      * intros [?|(-> & response & [= ->] & ? & ?)]; [done|].
        split; [done|]. by exists response.
  - intros e. destruct r as [e0|ev]; cbn [Command.answer_promise].
    + split; [discriminate|]. by intros (_ & ? & ? & _).
    + destruct (insert_node_handler_throws ev) as (_ & Hpr & _).
      rewrite Hpr. split.
      * intros (-> & response & -> & ? & ?). split; [done|]. by exists response.
      * intros (-> & response & [= ->] & ? & ?). split; [done|]. by exists response.
  - by intros e ->.
  - intros ev. by destruct (insert_node_handler_throws ev) as (_ & _ & H).
Qed.

Section DecodingFacts.
Context {T : Type}.
Variable JSON_parse : string -> option T.

(** When the two ['end'] handlers throw. *)
Lemma make_regular_cb_throws (response : Response) (e : Exn) :
  make_regular_cb JSON_parse response = Throw e <->
  e = SyntaxError /\ 200 <= statusCode response < 300 /\ JSON_parse (body_of response) = None.
Proof.
  unfold make_regular_cb.
  destruct ((200 <=? statusCode response) && (statusCode response <? 300)) eqn:Hs.
  - apply andb_true_iff in Hs as [H1 H2]. apply Z.leb_le in H1. apply Z.ltb_lt in H2.
    destruct (JSON_parse (body_of response)) as [parsed|].
    + split; [discriminate | by intros (_ & _ & ?)].
    + split; [intros [= <-]; repeat split; lia | by intros (-> & _)].
  - split; [discriminate|]. intros (_ & Hrange & _).
    apply andb_false_iff in Hs as [Hlo|Hhi];
      [apply Z.leb_gt in Hlo | apply Z.ltb_ge in Hhi]; lia.
Qed.

Lemma make_promise_cb_throws (response : Response) (e : Exn) :
  make_promise_cb JSON_parse response = Throw e <->
  e = SyntaxError /\ 200 <= statusCode response < 300 /\ JSON_parse (body_of response) = None.
Proof.
  unfold make_promise_cb.
  destruct ((200 <=? statusCode response) && (statusCode response <? 300)) eqn:Hs.
  - apply andb_true_iff in Hs as [H1 H2]. apply Z.leb_le in H1. apply Z.ltb_lt in H2.
    destruct (JSON_parse (body_of response)) as [parsed|].
    + split; [discriminate | by intros (_ & _ & ?)].
    + split; [intros [= <-]; repeat split; lia | by intros (-> & _)].
  - split; [discriminate|]. intros (_ & Hrange & _).
    apply andb_false_iff in Hs as [Hlo|Hhi];
      [apply Z.leb_gt in Hlo | apply Z.ltb_ge in Hhi]; lia.
Qed.

(** The handlers of the operations that parse the body throw in one
    case only: the status code is from 200 to 299 and the body is not a
    JSON text; the exception is then the SyntaxError of [JSON.parse]. *)
Lemma decoding_handlers_throw (ev : HttpEvent) (e : Exn) :
  let unparsable :=
    e = SyntaxError /\
    exists response, ev = ResponseEvent response /\
      200 <= statusCode response < 300 /\ JSON_parse (body_of response) = None in
  (get_helper_callback JSON_parse ev = Throw e <-> unparsable) /\
  (get_helper_promise JSON_parse ev = Throw e <-> unparsable) /\
  (query_helper_callback JSON_parse ev = Throw e <-> unparsable) /\
  (query_helper_promise JSON_parse ev = Throw e <-> unparsable).
Proof.
  intros unparsable. subst unparsable.
  destruct ev as [err|response];
    cbn [get_helper_callback get_helper_promise query_helper_callback query_helper_promise].
  - repeat split; try discriminate; by intros (_ & ? & ? & _).
  - rewrite make_regular_cb_throws, make_promise_cb_throws.
    assert ((e = SyntaxError /\ 200 <= statusCode response < 300 /\
             JSON_parse (body_of response) = None) <->
            (e = SyntaxError /\ exists response0, ResponseEvent response = ResponseEvent response0 /\
               200 <= statusCode response0 < 300 /\ JSON_parse (body_of response0) = None)) as Hiff.
    { split.
      - intros (? & ? & ?). split; [done|]. by exists response.
      - by intros (? & ? & [= <-] & ? & ?). }
    tauto.
Qed.
End DecodingFacts.

(** X7.  The operations that parse the body (every GET operation and
    the four query operations), called with a callback, throw in two
    cases and no other: [http.request] throws, and the exception reaches
    the caller; or the request is made and ends with a response whose
    status code is from 200 to 299 and whose body is not a JSON text,
    and the SyntaxError of [JSON.parse] escapes from the handler.
    Called without a callback they throw in the second case only: what
    [http.request] throws rejects the promise.  Nothing is thrown for a
    failing status code, whatever the body, nor for an ['error']
    event. *)
Theorem decoding_throws {W T : Type}
    (this_auth : option string) (this_host : string) (this_port : Z)
    (http : Options -> option string -> W -> Requested * W)
    (JSON_stringify : list (string * JSValue) -> string)
    (JSON_parse : string -> option T)
    (op : Api.Operation) (w : W) (e : Exn) :
  let requested :=
    fst (http (options this_auth this_host this_port op)
           (request_body JSON_stringify <$> Api.written op) w) in
  let unparsable :=
    e = SyntaxError /\
    exists response, requested = Made (ResponseEvent response) /\
      200 <= statusCode response < 300 /\ JSON_parse (body_of response) = None in
  (fst (call_with_callback this_auth this_host this_port http JSON_stringify JSON_parse op w)
     = Throw e <-> requested = Refused e \/ unparsable) /\
  (fst (call_with_promise this_auth this_host this_port http JSON_stringify JSON_parse op w)
     = Throw e <-> unparsable) /\
  (requested = Refused e ->
   fst (call_with_promise this_auth this_host this_port http JSON_stringify JSON_parse op w)
     = Normal (Rejected (JError e))).
Proof.
  intros requested unparsable. subst unparsable.
  assert (fst (call_with_callback this_auth this_host this_port http JSON_stringify
                 JSON_parse op w) =
          match requested with
          | Refused e0 => Throw e0
          | Made ev => get_helper_callback JSON_parse ev
          end /\
          fst (call_with_promise this_auth this_host this_port http JSON_stringify
                 JSON_parse op w) =
          match requested with
          | Refused e0 => Normal (Rejected (JError e0))
          | Made ev => get_helper_promise JSON_parse ev
          end) as [-> ->].
  { subst requested. unfold call_with_callback, call_with_promise.
    destruct (Api.written op) as [query|]; cbn [fmap option_fmap option_map];
      by destruct (http _ _ w) as [[e0|ev] w']. }
  destruct requested as [e0|ev].
  - split; [|split].
    + split; [intros [= ->]; by left|]. intros [[= ->]|(_ & ? & ? & _)]; done.
    + split; [discriminate|]. by intros (_ & ? & ? & _).
    + by intros [= ->].
  - destruct (decoding_handlers_throw JSON_parse ev e) as (Hcb & Hpr & _).
    rewrite Hcb, Hpr. split; [|split].
    + split.
      * intros (-> & response & -> & ? & ?). right. split; [done|]. by exists response.
      * intros [?|(-> & response & [= ->] & ? & ?)]; [done|].
        split; [done|]. by exists response.
    + split.
      * intros (-> & response & -> & ? & ?). split; [done|]. by exists response.
      * intros (-> & response & [= ->] & ? & ?). split; [done|]. by exists response.
    + discriminate.
Qed.

(** X8.  Called with a callback or without, an operation that makes one
    request tells the same thing, except when [http.request] throws.
    When the request is made: the promise is resolved with the value
    the callback gets after a [null] error, or rejected with the value
    the callback gets as its error, or both handlers throw the same
    exception.  When [http.request] throws: in the callback style the
    exception reaches the caller, in the other it rejects the promise.
    The world is left the same in both styles. *)
Theorem styles_compared {W T : Type}
    (this_auth : option string) (this_host : string) (this_port : Z)
    (http : Options -> option string -> W -> Requested * W)
    (JSON_stringify : list (string * JSValue) -> string)
    (JSON_parse : string -> option T)
    (command : Command.Operation) (op : Api.Operation) (w : W) :
  (snd (command_with_callback this_auth this_host this_port http JSON_stringify command w) =
   snd (command_with_promise this_auth this_host this_port http JSON_stringify command w) /\
   match
     fst (http (command_options this_auth this_host this_port command)
            (JSON_stringify <$> Command.written command) w),
     fst (command_with_callback this_auth this_host this_port http JSON_stringify command w),
     fst (command_with_promise this_auth this_host this_port http JSON_stringify command w)
   with
   | Made _, Normal (Invoked err data), Normal (Resolved value) => err = JNull /\ data = value
   | Made _, Normal (Invoked err data), Normal (Rejected reason) =>
       err = reason /\ (data = JNull \/ data = JUndefined)
   | Made _, Throw e, Throw e' => e = e'
   | Refused e, Throw e', Normal (Rejected reason) => e' = e /\ reason = JError e
   | _, _, _ => False
   end) /\
  (snd (call_with_callback this_auth this_host this_port http JSON_stringify JSON_parse op w) =
   snd (call_with_promise this_auth this_host this_port http JSON_stringify JSON_parse op w) /\
   match
     fst (http (options this_auth this_host this_port op)
            (request_body JSON_stringify <$> Api.written op) w),
     fst (call_with_callback this_auth this_host this_port http JSON_stringify JSON_parse op w),
     fst (call_with_promise this_auth this_host this_port http JSON_stringify JSON_parse op w)
   with
   | Made _, Normal (Invoked err (Some document)), Normal (Resolved value) =>
       err = JNull /\ document = value
   | Made _, Normal (Invoked err None), Normal (Rejected reason) => err = reason
   | Made _, Throw e, Throw e' => e = e'
   | Refused e, Throw e', Normal (Rejected reason) => e' = e /\ reason = JError e
   | _, _, _ => False
   end).
Proof.
  split.
  - unfold command_with_callback, command_with_promise.
    destruct (http _ _ w) as [[e|ev] w']; cbn [fst snd]; [by split|].
    split; [reflexivity|].
    destruct command, ev as [err|response];
      cbn [Command.answer_callback Command.answer_promise
           deletion_helper_callback deletion_helper_promise
           edit_callback edit_promise
           insertion_helper_callback insertion_helper_promise
           insert_node_callback insert_node_promise
           validate_node_callback validate_node_promise];
      repeat lazymatch goal with
        | |- context [if ?c then _ else _] => destruct c
        | |- context [match ?l with Some _ => _ | None => _ end] => destruct l
        end;
      auto.
  - unfold call_with_callback, call_with_promise.
    destruct (Api.written op) as [query|]; cbn [fmap option_fmap option_map];
      (destruct (http _ _ w) as [[e|[err|response]] w']; cbn [fst snd];
       cbn [get_helper_callback get_helper_promise query_helper_callback query_helper_promise];
       [by split | by split |];
       split; [reflexivity|];
       unfold make_regular_cb, make_promise_cb;
       destruct ((200 <=? statusCode response) && (statusCode response <? 300));
       [by destruct (JSON_parse (body_of response)) | done]).
Qed.

(** Appending strings is associative. *)
Lemma append_assoc (a b c : string) : (a +:+ b) +:+ c = a +:+ b +:+ c.
Proof.
  induction a as [|x a IH]; [reflexivity|].
  change (String x ((a +:+ b) +:+ c) = String x (a +:+ b +:+ c)). by f_equal.
Qed.

(** Where the last ['/'] of a string is. *)
Lemma last_separator (s : string) :
  occurs "/" s = true ->
  exists before after, s = before +:+ "/" +:+ after /\ occurs "/" after = false.
Proof.
  induction s as [|c rest IH]; cbn [occurs]; [discriminate|].
  destruct (occurs "/" rest) eqn:Hrest.
  - intros _. destruct (IH eq_refl) as (before & after & -> & Hafter).
    by exists (String c before), after.
  - rewrite orb_false_r. intros Hc. apply Ascii.eqb_eq in Hc as ->.
    by exists "", rest.
Qed.

(** X9.  On a 201 response with a [location] header, the node id that
    [insert_node] hands over is the part of the header after its last
    ['/'], or the whole header when it has none: it never holds a ['/'].
    When the header ends with a ['/'] the insertion succeeds with the
    empty string as the node id. *)
Theorem node_id_follows_last_slash (response : Response) (location : string) :
  statusCode response = 201 ->
  headers response !! "location" = Some location ->
  (exists before id,
     location = before +:+ id /\
     occurs "/" id = false /\
     (before = "" \/ exists b, before = b +:+ "/") /\
     insert_node_callback (ResponseEvent response) = Normal (Invoked JNull (JStr id)) /\
     insert_node_promise (ResponseEvent response) = Normal (Resolved (JStr id))) /\
  (forall b, location = b +:+ "/" ->
     insert_node_callback (ResponseEvent response) = Normal (Invoked JNull (JStr "")) /\
     insert_node_promise (ResponseEvent response) = Normal (Resolved (JStr ""))).
Proof.
  intros Hs Hl. cbn [insert_node_callback insert_node_promise].
  rewrite Hs, Hl. cbn [Z.eqb Pos.eqb]. unfold pop. split.
  - destruct (occurs "/" location) eqn:Hocc.
    + destruct (last_separator location Hocc) as (before & after & -> & Hafter).
      exists (before +:+ "/"), after.
      rewrite split_last by exact Hafter.
      split; [by rewrite append_assoc|]. split; [exact Hafter|].
      split; [right; by exists before | done].
    + exists "", location. rewrite split_without_separator by exact Hocc.
      cbn [last]. repeat split; auto.
  - intros b ->. change (b +:+ "/") with (b +:+ "/" +:+ "").
    by rewrite split_last.
Qed.

(** ** More about the loop *)

Section DoWhilstMore.
Context {S R : Type}.
Variable iteratee : S -> S * Exc Next.
Variable test : S -> option (list JSValue) -> bool.
Variable callback : S -> JSValue -> option (list JSValue) -> R.

(** What every round preserves holds of the state the loop is left in. *)
Lemma doWhilst_invariant (P : S -> Prop) :
  (forall s, P s -> P (fst (iteratee s))) ->
  forall fuel s, P s -> P (fst (doWhilst iteratee test callback fuel s)).
Proof.
  intros Hstep fuel. induction fuel as [|fuel IH]; intros s Hs; [exact Hs|].
  cbn [doWhilst]. specialize (Hstep s Hs).
  destruct (iteratee s) as [s1 [[err results]|e]]; cbn [fst] in *; [|exact Hstep].
  destruct (truthy err); [exact Hstep|].
  destruct (test s1 results); [by apply IH | exact Hstep].
Qed.

(** More fuel resumes a loop that was still running where it was. *)
Lemma doWhilst_resume (fuel : nat) : forall (extra : nat) s,
  doWhilst iteratee test callback (fuel + extra) s =
  match doWhilst iteratee test callback fuel s with
  | (s', None) => doWhilst iteratee test callback extra s'
  | (s', Some r) => (s', Some r)
  end.
Proof.
  induction fuel as [|fuel IH]; intros extra s; cbn [doWhilst Nat.add]; [reflexivity|].
  destruct (iteratee s) as [s1 [[err results]|e]]; [|reflexivity].
  destruct (truthy err); [reflexivity|].
  destruct (test s1 results); [apply IH | reflexivity].
Qed.
End DoWhilstMore.

Section Growth.
Context {W : Type}.
Variable f : FetchOp W.
Variable query : Query.
Variable namespace : string.

(** A round only adds to a run. *)
Lemma round_extends (s0 s : Run W) :
  extends s0 s -> extends s0 (fst (round f query namespace s)).
Proof.
  intros (Hall & Hlog & Hpage). unfold round.
  destruct (f query namespace (page (vars s)) (world s)) as [[err page_result|e|e] w'].
  - unfold on_page. destruct (truthy err).
    + repeat split; cbn; [done | by apply prefix_app_r | done].
    + destruct page_result as [p|].
      * destruct (0 <? Z.of_nat (length (results p)));
          (repeat split; cbn; [try done; by apply prefix_app_r | by apply prefix_app_r | lia]).
      * repeat split; cbn; [done | by apply prefix_app_r | lia].
  - repeat split; cbn; [done | by apply prefix_app_r | done].
  - repeat split; cbn; [done | by apply prefix_app_r | done].
Qed.
End Growth.

(** X10.  Nothing gathered is ever lost: with more rounds, the results
    accumulated so far stay where they are at the head of the list, the
    calls made so far stay the first calls made, and the page number
    does not go down.  This holds for both helpers. *)
Theorem aggregation_only_grows {W : Type} (osdf : Osdf W)
    (query : Query) (namespace : string) (w : W) (fuel extra : nat) :
  extends (fst (make_query_all_callback_helper query namespace osdf fuel w))
          (fst (make_query_all_callback_helper query namespace osdf (fuel + extra) w)) /\
  extends (fst (make_query_all_promise_helper query namespace osdf fuel w))
          (fst (make_query_all_promise_helper query namespace osdf (fuel + extra) w)).
Proof.
  rewrite <- !helpers_same_run. rewrite !callback_helper_loop.
  assert (extends (fst (doWhilst (round (func osdf query) query namespace) whilst
                          report_callback fuel (at_head 1 [] w [])))
                  (fst (doWhilst (round (func osdf query) query namespace) whilst
                          report_callback (fuel + extra) (at_head 1 [] w [])))) as H; [|by split].
  rewrite doWhilst_resume.
  destruct (doWhilst _ _ _ fuel _) as [s' [r|]]; cbn [fst].
  - by repeat split.
  - apply (doWhilst_invariant _ _ _ (extends s')).
    + apply round_extends.
    + by repeat split.
Qed.

(** A reply that continues carries at least one result. *)
Lemma continuing_replies_carry_results (rs : list Reply) :
  Forall (fun r => continues r = true) rs ->
  (length rs <= length (concat (results_of <$> rs)))%nat.
Proof.
  induction 1 as [|r rs Hr _ IH]; [done|].
  destruct (continues_inv r Hr) as (err & p & -> & _ & Hne).
  cbn [fmap list_fmap concat results_of]. rewrite length_app. cbn [length].
  destruct (results p); [done | cbn [length]; lia].
Qed.

(** X11.  After [fuel] rounds a helper is still running, with nothing
    told to its caller, exactly when each of the first [fuel] replies
    was a page with results delivered without error.  It has then made
    [fuel] calls and holds at least [fuel] results: against a server
    that never sends an empty page the aggregation never completes and
    keeps accumulating. *)
Theorem aggregation_runs_while_pages_come {W : Type} (osdf : Osdf W)
    (query : Query) (namespace : string) (w : W) (fuel : nat) :
  let pages_come :=
    Forall (fun r => continues r = true)
      (transcript (func osdf query) query namespace w 1 fuel) in
  (snd (make_query_all_callback_helper query namespace osdf fuel w) = None <-> pages_come) /\
  (snd (make_query_all_promise_helper query namespace osdf fuel w) = None <-> pages_come) /\
  (pages_come ->
   length (fetched (fst (make_query_all_callback_helper query namespace osdf fuel w))) = fuel /\
   (fuel <= length (all_results (vars (fst (make_query_all_callback_helper
                                              query namespace osdf fuel w)))))%nat).
Proof.
  intros pages_come. subst pages_come.
  rewrite callback_helper_loop, promise_helper_loop, executor_running.
  assert (forall {R : Type} (callback : Run W -> JSValue -> option (list JSValue) -> R),
            Forall (fun r => continues r = true)
              (transcript (func osdf query) query namespace w 1 fuel) ->
            doWhilst (round (func osdf query) query namespace) whilst callback fuel
              (at_head 1 [] w []) =
            (at_head (1 + Z.of_nat fuel)
               (concat (results_of <$> transcript (func osdf query) query namespace w 1 fuel))
               (world_after (func osdf query) query namespace w 1 fuel)
               (zip (seqZ 1 (Z.of_nat fuel))
                  (transcript (func osdf query) query namespace w 1 fuel)), None)) as Hrun.
  { intros R callback H.
    rewrite <- (Nat.add_0_r fuel) at 1. rewrite loop_continues by exact H. reflexivity. }
  assert (forall {R : Type} (callback : Run W -> JSValue -> option (list JSValue) -> R),
            snd (doWhilst (round (func osdf query) query namespace) whilst callback fuel
                   (at_head 1 [] w [])) = None ->
            Forall (fun r => continues r = true)
              (transcript (func osdf query) query namespace w 1 fuel)) as Hback.
  { intros R callback H.
    destruct (doWhilst _ _ callback fuel _) as [s' out] eqn:E. cbn [snd] in H. subst out.
    apply loop_run in E as (k & _ & _ & -> & Hall). exact Hall. }
  split; [|split].
  - split; [apply Hback | intros H; by rewrite Hrun].
  - split; [apply Hback | intros H; by rewrite Hrun].
  - intros H. rewrite Hrun by exact H. cbn [fst fetched vars at_head all_results].
    split.
    + rewrite length_zip_with, length_seqZ, transcript_length. lia.
    + etrans; [|apply continuing_replies_carry_results; exact H].
      by rewrite transcript_length.
Qed.

(** X12.  Whenever a helper called with a callback tells anything or
    lets an exception escape, the calls it made were for the pages 1 to
    [k + 1], the first [k] replies were pages with results delivered
    without error, and the last reply [r] was not; and [r] alone decides
    the outcome, in both styles.  A success is told only after a page
    without results, and carries the results of the [k] pages before
    it, in order; a truthy error of [r] is told as it is; an exception
    escapes only when the operation threw it at the call or raised it
    later, or delivered, beside an error that is not truthy, a value
    that is not a page ([null], [{}], ...).  What the first call throws
    rejects the promise instead of escaping. *)
Theorem aggregation_outcome {W : Type} (osdf : Osdf W)
    (query : Query) (namespace : string) (w : W) (fuel : nat)
    (told : Exc (Completion JSValue)) :
  snd (make_query_all_callback_helper query namespace osdf fuel w) = Some told ->
  exists k : nat,
    let f := func osdf query in
    let rs := transcript f query namespace w 1 k in
    let r := fst (f query namespace (1 + Z.of_nat k) (world_after f query namespace w 1 k)) in
    (k < fuel)%nat /\
    Forall (fun r => continues r = true) rs /\
    continues r = false /\
    fetched (fst (make_query_all_callback_helper query namespace osdf fuel w)) =
      zip (seqZ 1 (Z.of_nat (S k))) (rs ++ [r]) /\
    told =
      match r with
      | Raises e | Throws e => Throw e
      | CallsBack err page_result =>
          if truthy err then Normal (Invoked err JNull)
          else match page_result with
               | None => Throw TypeError
               | Some _ => Normal (Invoked JNull (final (concat (results_of <$> rs))))
               end
      end /\
    snd (make_query_all_promise_helper query namespace osdf fuel w) =
      Some
        match r with
        | Throws e =>
            match k with
            | O => Normal (Rejected (JError e))
            | S _ => Throw e
            end
        | Raises e => Throw e
        | CallsBack err page_result =>
            if truthy err then Normal (Rejected err)
            else match page_result with
                 | None => Throw TypeError
                 | Some _ => Normal (Resolved (final (concat (results_of <$> rs))))
                 end
        end.
Proof.
  intros Htold. rewrite callback_helper_loop in Htold |- *.
  rewrite promise_helper_loop, executor_outcome.
  destruct (doWhilst _ _ report_callback fuel _) as [s' out] eqn:E.
  cbn [snd] in Htold. subst out. cbn [fst].
  apply loop_run in E as (k & Hk & Hlog & k0 & -> & Hcont & Hstop & Hend & Hall).
  exists k0. cbn zeta. cbn [app] in *.
  split; [lia|]. split; [exact Hcont|]. split; [exact Hstop|]. split; [|split].
  - rewrite Hlog, <- transcript_snoc. reflexivity.
  - rewrite Hend. unfold ending, report_callback. rewrite Hall.
    destruct (fst _) as [err [p|]|e|e]; try reflexivity; by destruct (truthy err).
  - destruct (helper_stops osdf query namespace report_promise w k0 fuel Hcont Hstop)
      as (s2 & -> & _ & Hall2); [lia|].
    cbn [snd]. unfold ending, report_promise. rewrite Hall2.
    destruct k0 as [|k1].
    + change (fst (func osdf query query namespace (1 + Z.of_nat 0)
                     (world_after (func osdf query) query namespace w 1 0)))
        with (fst (func osdf query query namespace 1 w)).
      destruct (fst (func osdf query query namespace 1 w)) as [err [p|]|e|e];
        try reflexivity; by destruct (truthy err).
    + rewrite transcript_S in Hcont. apply Forall_cons in Hcont as [Hfirst _].
      apply continues_inv in Hfirst as (err1 & p1 & -> & _).
      destruct (fst _) as [err [p|]|e|e]; try reflexivity; by destruct (truthy err).
Qed.

(** Replies with the same payload continue alike and carry the same
    results. *)
Lemma same_payload_continues (r r' : Reply) :
  same_payload r r' -> continues r = continues r' /\ results_of r = results_of r'.
Proof.
  destruct r as [err [p|]|e|e], r' as [err' [p'|]|e'|e']; cbn; try done.
  intros [-> ->]. done.
Qed.

(** Two loops whose operations reply with the same payloads end the
    same way, provided the final functions read the results gathered
    and nothing else of a run. *)
Lemma loops_same_payload {W W' R : Type} (f : FetchOp W) (f' : FetchOp W')
    (query query' : Query) (namespace namespace' : string)
    (callback : Run W -> JSValue -> option (list JSValue) -> R)
    (callback' : Run W' -> JSValue -> option (list JSValue) -> R) :
  (forall s s' err results,
     all_results (vars s) = all_results (vars s') ->
     callback s err results = callback' s' err results) ->
  forall (fuel : nat) pg all w w' log log',
    Forall2 same_payload (transcript f query namespace w pg fuel)
                         (transcript f' query' namespace' w' pg fuel) ->
    snd (doWhilst (round f query namespace) whilst callback fuel (at_head pg all w log)) =
    snd (doWhilst (round f' query' namespace') whilst callback' fuel (at_head pg all w' log')).
Proof.
  intros Hcb fuel. induction fuel as [|fuel IH]; intros pg all w w' log log' H; [reflexivity|].
  rewrite !transcript_S in H. apply Forall2_cons_1 in H as [Hr Hrest].
  apply same_payload_continues in Hr as Hboth. destruct Hboth as [Hc Hres].
  destruct (continues (fst (f query namespace pg w))) eqn:C.
  - symmetry in Hc. cbn [doWhilst]. rewrite !round_continues by assumption.
    cbn [truthy].
    change (whilst (at_head ?a ?b ?c ?d) ?e) with true. cbv iota.
    rewrite Hres. apply IH. exact Hrest.
  - symmetry in Hc.
    destruct (loop_ends f query namespace callback fuel pg all w log C)
      as (s1 & -> & _ & Hall1 & _).
    destruct (loop_ends f' query' namespace' callback' fuel pg all w' log' Hc)
      as (s2 & -> & _ & Hall2 & _).
    cbn [snd]. f_equal. unfold ending.
    assert (all_results (vars s1) = all_results (vars s2)) as Hall by congruence.
    destruct (fst (f query namespace pg w)) as [err [p|]|e|e],
             (fst (f' query' namespace' pg w')) as [err' [p'|]|e'|e']; cbn in Hr; try done.
    + destruct Hr as [-> _]. rewrite <- Hall.
      destruct (truthy err'); f_equal; by apply Hcb.
    + subst err'. destruct (truthy err); [|done]. f_equal. by apply Hcb.
    + by subst.
    + by subst.
Qed.

(** X13.  The outcome of an aggregation is decided by the errors and the
    result lists of the replies, and by nothing else: when two
    operations, asked for the pages 1, 2, ..., reply with the same
    errors and the same results, the aggregations end the same way,
    whatever the queries and namespaces were and whatever counts and
    page numbers the pages carried. *)
Theorem aggregation_reads_results_only {W W' : Type} (osdf : Osdf W) (osdf' : Osdf W')
    (query query' : Query) (namespace namespace' : string) (w : W) (w' : W') (fuel : nat) :
  Forall2 same_payload
    (transcript (func osdf query) query namespace w 1 fuel)
    (transcript (func osdf' query') query' namespace' w' 1 fuel) ->
  snd (make_query_all_callback_helper query namespace osdf fuel w) =
  snd (make_query_all_callback_helper query' namespace' osdf' fuel w') /\
  snd (make_query_all_promise_helper query namespace osdf fuel w) =
  snd (make_query_all_promise_helper query' namespace' osdf' fuel w').
Proof.
  intros H. rewrite !callback_helper_loop, !promise_helper_loop, !executor_outcome. split.
  - apply loops_same_payload; [|exact H].
    intros s s' err results Hall. unfold report_callback. by rewrite Hall.
  - assert (snd (doWhilst (round (func osdf query) query namespace) whilst report_promise fuel
                   (at_head 1 [] w [])) =
            snd (doWhilst (round (func osdf' query') query' namespace') whilst report_promise
                   fuel (at_head 1 [] w' []))) as ->.
    { apply loops_same_payload; [|exact H].
      intros s s' err results Hall. unfold report_promise. by rewrite Hall. }
    destruct fuel as [|fuel]; [by destruct (fst _), (fst _)|].
    rewrite !transcript_S in H. apply Forall2_cons_1 in H as [Hfirst _].
    destruct (fst (func osdf query query namespace 1 w)) as [err [p|]|e|e],
             (fst (func osdf' query' query' namespace' 1 w')) as [err' [p'|]|e'|e'];
      cbn in Hfirst; try done.
    by subst.
Qed.

(** How both helpers end on the reply [r] that follows [k] pages with
    results: as the final functions tell, except that what the first
    call throws rejects the promise. *)
Lemma helpers_end {W : Type} (osdf : Osdf W)
    (query : Query) (namespace : string) (w : W) (k fuel : nat) :
  let f := func osdf query in
  let gathered := concat (results_of <$> transcript f query namespace w 1 k) in
  let r := fst (f query namespace (1 + Z.of_nat k) (world_after f query namespace w 1 k)) in
  Forall (fun r => continues r = true) (transcript f query namespace w 1 k) ->
  continues r = false ->
  (k < fuel)%nat ->
  snd (make_query_all_callback_helper query namespace osdf fuel w) =
    Some (ending report_callback (at_head 0 gathered w []) r) /\
  snd (make_query_all_promise_helper query namespace osdf fuel w) =
    Some match r, k with
         | Throws e, O => Normal (Rejected (JError e))
         | _, _ => ending report_promise (at_head 0 gathered w []) r
         end.
Proof.
  intros f gathered r Hcont Hstop Hfuel. subst f gathered r.
  rewrite callback_helper_loop, promise_helper_loop, executor_outcome.
  destruct (helper_stops osdf query namespace report_callback w k fuel Hcont Hstop Hfuel)
    as (s1 & -> & _ & Hall1).
  destruct (helper_stops osdf query namespace report_promise w k fuel Hcont Hstop Hfuel)
    as (s2 & -> & _ & Hall2).
  cbn [snd]. unfold ending, report_callback, report_promise. rewrite Hall1, Hall2.
  cbn [at_head vars all_results].
  split; [reflexivity|].
  destruct k as [|k].
  - change (fst (func osdf query query namespace (1 + Z.of_nat 0)
                   (world_after (func osdf query) query namespace w 1 0)))
      with (fst (func osdf query query namespace 1 w)).
    by destruct (fst (func osdf query query namespace 1 w)) as [err [p|]|e|e].
  - rewrite transcript_S in Hcont. apply Forall_cons in Hcont as [Hfirst _].
    apply continues_inv in Hfirst as (err1 & p1 & -> & _).
    by destruct (fst _) as [err [p|]|e|e].
Qed.

(** ** The requests of an aggregation *)

Section Requests.
Context {W : Type}.
Variable this_auth : option string.
Variable this_host : string.
Variable this_port : Z.
Variable http : Options -> option string -> W -> Requested * W.
Variable JSON_stringify : list (string * JSValue) -> string.
Variable JSON_parse : string -> option (option Page).
Variable query : Query.
Variable namespace : string.

Local Abbreviation client :=
  (osdf this_auth this_host this_port (recording http) JSON_stringify JSON_parse).
Local Abbreviation expected :=
  (page_request this_auth this_host this_port JSON_stringify query namespace).

(** A request that is made is no call that throws. *)
Lemma reply_of_made (ev : HttpEvent) (n : Z) :
  was_requested (n, reply_of JSON_parse (Made ev)) = true.
Proof.
  unfold was_requested, reply_of. cbn [snd].
  by destruct (query_helper_callback JSON_parse ev) as [[err [page_result|]]|e].
Qed.

(** Every round makes the request expected for its page number, or
    none when [http.request] throws. *)
Lemma round_records (s : Run (list Request * W)) :
  fst (world s) = expected <$> (List.filter was_requested (fetched s)).*1 ->
  fst (world (fst (round (func client query) query namespace s))) =
  expected <$> (List.filter was_requested
                  (fetched (fst (round (func client query) query namespace s)))).*1.
Proof.
  intros H. unfold round, func, page_request.
  destruct query as [es_query|oql_query]; cbn [isString oql_query_page query_page osdf];
    unfold recording; cbn [Api.written request_body];
    (destruct (http _ _ (snd (world s))) as [[e|ev] w'];
     [ cbn [reply_of fst snd world fetched];
       rewrite List.filter_app; cbn [List.filter was_requested snd];
       by rewrite app_nil_r
     | pose proof (reply_of_made ev (page (vars s))) as Hmade;
       destruct (reply_of JSON_parse (Made ev)) as [err page_result|e|e];
       [destruct (on_page (vars s) err page_result)| |];
       cbn [fst snd world fetched]; rewrite List.filter_app; cbn [List.filter];
       rewrite Hmade, !fmap_app, H; reflexivity ]).
Qed.
End Requests.

(** X14.  What [query_all] and [oql_query_all] send, whichever of the
    two was called and in either style.  The calls of the single-page
    operation are for the page numbers 1, 2, ... in this order.  Each
    call for which [http.request] does not throw sends one POST, to
    [/nodes/oql/<namespace>/page/<n>] when the query is a string and to
    [/nodes/query/<namespace>/page/<n>] when it is an object, with the
    settings of the module and with the same body each time, the query
    itself or its JSON text; a call for which [http.request] throws
    sends nothing and is the last call made; and no other request is
    sent. *)
Theorem query_all_requests {W : Type}
    (this_auth : option string) (this_host : string) (this_port : Z)
    (http : Options -> option string -> W -> Requested * W)
    (JSON_stringify : list (string * JSValue) -> string)
    (JSON_parse : string -> option (option Page))
    (query : Query) (namespace : string) (fuel : nat) (w : W) :
  let expected := page_request this_auth this_host this_port JSON_stringify query namespace in
  let sent (run : Run (list Request * W)) :=
    fst (world run) = expected <$> (List.filter was_requested (fetched run)).*1 /\
    (fetched run).*1 = seqZ 1 (Z.of_nat (length (fetched run))) /\
    (forall (i : nat) (n : Z) (e : Exn),
       fetched run !! i = Some (n, Throws e) -> length (fetched run) = S i) in
  sent (fst (query_all_callback this_auth this_host this_port (recording http)
               JSON_stringify JSON_parse query namespace fuel ([], w))) /\
  sent (fst (query_all_promise this_auth this_host this_port (recording http)
               JSON_stringify JSON_parse query namespace fuel ([], w))) /\
  sent (fst (oql_query_all_callback this_auth this_host this_port (recording http)
               JSON_stringify JSON_parse query namespace fuel ([], w))) /\
  sent (fst (oql_query_all_promise this_auth this_host this_port (recording http)
               JSON_stringify JSON_parse query namespace fuel ([], w))).
Proof.
  intros expected sent.
  unfold query_all_callback, query_all_promise, oql_query_all_callback, oql_query_all_promise.
  rewrite <- helpers_same_run.
  assert (sent (fst (make_query_all_callback_helper query namespace
                       (osdf this_auth this_host this_port (recording http)
                          JSON_stringify JSON_parse) fuel ([], w)))) as Hsent; [|done].
  subst sent. cbn beta. rewrite callback_helper_loop.
  pose proof (doWhilst_invariant _ whilst report_callback
                (fun s => fst (world s) =
                          expected <$> (List.filter was_requested (fetched s)).*1)
                (round_records this_auth this_host this_port http JSON_stringify JSON_parse
                   query namespace) fuel (at_head 1 [] ([], w) []) eq_refl) as Hinv.
  destruct (doWhilst _ _ _ fuel _) as [s' out] eqn:E. cbn [fst] in *.
  apply loop_run in E as (k & _ & Hlog & Hout). cbn [app] in Hlog.
  split; [exact Hinv|].
  assert (length (fetched s') = k) as Hlen
    by (rewrite Hlog, length_zip_with, length_seqZ, transcript_length; lia).
  split.
  - rewrite Hlen, Hlog. apply fst_zip. rewrite length_seqZ, transcript_length. lia.
  - intros i n e Hi. rewrite Hlen. rewrite Hlog in Hi.
    apply lookup_zip_with_Some in Hi as (n0 & r0 & Heq & _ & Hr).
    injection Heq as Hn0 Hr0. subst n0 r0.
    destruct out as [c|].
    + destruct Hout as (k0 & -> & Hcont & _).
      destruct (decide (i < k0)%nat) as [Hlt|Hge].
      * rewrite transcript_snoc, lookup_app_l in Hr by (rewrite transcript_length; lia).
        eapply Forall_lookup_1 in Hcont; [|exact Hr]. discriminate.
      * apply lookup_lt_Some in Hr. rewrite transcript_length in Hr. lia.
    + destruct Hout as [_ Hcont].
      eapply Forall_lookup_1 in Hcont; [|exact Hr]. discriminate.
Qed.

Section Composition.
Context {W : Type}.
Variable this_auth : option string.
Variable this_host : string.
Variable this_port : Z.
Variable http : Options -> option string -> W -> Requested * W.
Variable JSON_stringify : list (string * JSValue) -> string.
Variable JSON_parse : string -> option (option Page).
Variable query : Query.
Variable namespace : string.

Local Abbreviation client :=
  (osdf this_auth this_host this_port http JSON_stringify JSON_parse).
Local Abbreviation expected :=
  (page_request this_auth this_host this_port JSON_stringify query namespace).

(** The reply the helpers get for a page is what [query_helper] makes
    of the expected request. *)
Lemma reply_of_request (n : Z) (w : W) :
  fst (func client query query namespace n w) =
  reply_of JSON_parse (fst (http (fst (expected n)) (snd (expected n)) w)).
Proof.
  unfold func, page_request.
  destruct query as [es_query|oql_query]; cbn [isString oql_query_page query_page osdf];
    cbn [Api.written request_body fst snd];
    by destruct (http _ _ w).
Qed.

(** X15.  How an aggregation ends, told by what becomes of its last
    request.  After [k] pages with results: if [http.request] throws for
    page [k + 1], the exception escapes, except that in the promise
    style what the first call throws rejects the promise; if the
    request ends with an ['error'] event or a failing status code, the
    aggregation fails with that error when it is truthy, and a
    TypeError escapes when it is not; if the response has a status code
    from 200 to 299 and a body that is not JSON, the SyntaxError of
    [JSON.parse] escapes, in the promise style as well; if the body is
    JSON but not a page ([null], [{}], ...), a TypeError escapes; and if
    it is a page without results, the aggregation succeeds with the
    results of the [k] pages. *)
Theorem query_all_ends_on_response (w : W) (k fuel : nat) :
  let f := func client query in
  let gathered := concat (results_of <$> transcript f query namespace w 1 k) in
  let requested :=
    fst (http (fst (expected (1 + Z.of_nat k))) (snd (expected (1 + Z.of_nat k)))
           (world_after f query namespace w 1 k)) in
  let told_callback :=
    snd (query_all_callback this_auth this_host this_port http JSON_stringify JSON_parse
           query namespace fuel w) in
  let told_promise :=
    snd (query_all_promise this_auth this_host this_port http JSON_stringify JSON_parse
           query namespace fuel w) in
  let failure (err : JSValue) :=
    told_callback = Some (if truthy err then Normal (Invoked err JNull) else Throw TypeError) /\
    told_promise = Some (if truthy err then Normal (Rejected err) else Throw TypeError) in
  let escapes (e : Exn) :=
    told_callback = Some (Throw e) /\ told_promise = Some (Throw e) in
  Forall (fun r => continues r = true) (transcript f query namespace w 1 k) ->
  (k < fuel)%nat ->
  match requested with
  | Refused e =>
      told_callback = Some (Throw e) /\
      told_promise = Some match k with
                          | O => Normal (Rejected (JError e))
                          | S _ => Throw e
                          end
  | Made (ErrorEvent err) => failure err
  | Made (ResponseEvent response) =>
      if (200 <=? statusCode response) && (statusCode response <? 300) then
        match JSON_parse (body_of response) with
        | None => escapes SyntaxError
        | Some None => escapes TypeError
        | Some (Some p) =>
            results p = [] ->
            told_callback = Some (Normal (Invoked JNull (final gathered))) /\
            told_promise = Some (Normal (Resolved (final gathered)))
        end
      else failure (error_value response)
  end.
Proof.
  intros f gathered requested told_callback told_promise failure escapes Hcont Hfuel.
  subst told_callback told_promise failure escapes. cbn beta.
  unfold query_all_callback, query_all_promise.
  pose proof (reply_of_request (1 + Z.of_nat k) (world_after f query namespace w 1 k)) as Hr.
  change (fst (f query namespace (1 + Z.of_nat k) (world_after f query namespace w 1 k)) =
          reply_of JSON_parse requested) in Hr.
  pose proof (helpers_end client query namespace w k fuel Hcont) as Hend.
  cbn zeta in Hend. change (func client query) with f in Hend. fold gathered in Hend.
  rewrite Hr in Hend.
  destruct requested as [e|[err|response]]; cbn [reply_of query_helper_callback] in Hend.
  - destruct (Hend eq_refl Hfuel) as [-> ->]. by destruct k.
  - destruct (Hend ltac:(by destruct (truthy err)) Hfuel) as [-> ->].
    unfold ending, report_callback, report_promise.
    destruct (truthy err); by destruct k.
  - unfold make_regular_cb in Hend.
    destruct ((200 <=? statusCode response) && (statusCode response <? 300)).
    + destruct (JSON_parse (body_of response)) as [[p|]|].
      * intros Hp. destruct (Hend ltac:(cbn; by rewrite Hp) Hfuel) as [-> ->].
        by destruct k.
      * destruct (Hend eq_refl Hfuel) as [-> ->]. by destruct k.
      * destruct (Hend eq_refl Hfuel) as [-> ->]. by destruct k.
    + destruct (Hend eq_refl Hfuel) as [-> ->].
      unfold ending, report_callback, report_promise.
      destruct (truthy (error_value response)); by destruct k.
Qed.
End Composition.

(** ** The settings *)

Section SetupFacts.
Variable parseInt : JSValue -> JSValue.

Local Abbreviation setup := (Settings.setup parseInt).
Local Abbreviation setups := (Settings.setups parseInt).

Lemma setups_snoc calls settings this :
  setups (calls ++ [settings]) this = setup settings (setups calls this).
Proof. unfold Settings.setups. by rewrite fold_left_app. Qed.

(** X16.  Before the first [setup] no request can be made: [http] is
    [null] and [http.request] throws a TypeError.  After any calls of
    [setup], the last one alone decides the host, [ssl] and the module
    used for the requests, [https] exactly when its [ssl] is truthy; in
    particular settings without a [host] leave the host [undefined],
    not at the default nor at the host of an earlier call. *)
Theorem last_setup_decides (calls : list (list (string * JSValue)))
    (settings : list (string * JSValue)) (this : Settings.State) :
  let after := setups (calls ++ [settings]) this in
  Settings.http_request Settings.initial = Throw TypeError /\
  Settings.http_request after =
    Normal (if truthy (Settings.property settings "ssl") then Settings.Https
            else Settings.Http) /\
  Settings.host after = Settings.property settings "host" /\
  Settings.ssl after = Settings.property settings "ssl" /\
  (own_property "host" settings = None -> Settings.host after = JUndefined).
Proof.
  intros after. subst after. rewrite setups_snoc.
  repeat split. cbn [Settings.setup Settings.host]. unfold Settings.property.
  by intros ->.
Qed.

(** X17.  After any calls of [setup] the port is the one parsed from
    the last settings that had a truthy [port], and is untouched when
    there were none; the credentials are the [auth] of the last
    settings that had a truthy one, and are untouched when there were
    none.  So [setup] replaces the port and the credentials but never
    removes them: credentials that are truthy remain truthy whatever is
    passed to [setup] afterwards. *)
Theorem setup_keeps_last_given (calls : list (list (string * JSValue)))
    (this : Settings.State) :
  Settings.port (setups calls this) =
    match last (List.filter (fun settings => truthy (Settings.property settings "port")) calls)
    with
    | Some settings => parseInt (Settings.property settings "port")
    | None => Settings.port this
    end /\
  Settings.auth (setups calls this) =
    match last (List.filter (fun settings => truthy (Settings.property settings "auth")) calls)
    with
    | Some settings => Settings.property settings "auth"
    | None => Settings.auth this
    end /\
  (truthy (Settings.auth this) = true ->
   truthy (Settings.auth (setups calls this)) = true).
Proof.
  induction calls as [|settings calls IH] using rev_ind; [done|].
  rewrite setups_snoc, !List.filter_app.
  cbn [Settings.setup Settings.port Settings.auth List.filter].
  destruct IH as (IHport & IHauth & IHtruthy).
  split; [|split].
  - destruct (truthy (Settings.property settings "port")).
    + by rewrite last_snoc.
    + by rewrite app_nil_r.
  - destruct (truthy (Settings.property settings "auth")).
    + by rewrite last_snoc.
    + by rewrite app_nil_r.
  - intros H. destruct (truthy (Settings.property settings "auth")) eqn:E; auto.
Qed.

(** X18.  Calling [setup] twice with the same settings is the same as
    calling it once. *)
Theorem setup_idempotent (settings : list (string * JSValue)) (this : Settings.State) :
  setup settings (setup settings this) = setup settings this.
Proof.
  unfold Settings.setup. cbn [Settings.port Settings.auth].
  by destruct (truthy (Settings.property settings "port")),
              (truthy (Settings.property settings "auth")).
Qed.
End SetupFacts.

(** [query_all] given an OQL string, against a server that answers 404
    to everything: one request, to the OQL path, and the error of the
    server told to the caller. *)
Example run_query_all_not_found :
  let run :=
    query_all_callback (Some "test:test") "127.0.0.1" 8123 (recording (responding not_found))
      (fun _ => "{}") (fun _ => None) (OQL "select") "ns" 3 ([], tt) in
  fst (world (fst run)) =
    [({| auth := Some "test:test"; host := "127.0.0.1"; port := 8123;
         path := "/nodes/oql/ns/page/1"; method := "POST" |}, Some "select")] /\
  snd run = Some (Normal (Invoked (JStr "No such node") JNull)).
Proof. split; reflexivity. Qed.

(** The settings of the tests, [osdf.setup({auth: 'test:test'})]: the
    host is [undefined] afterwards, the port still the default. *)
Example setup_of_the_tests (parseInt : JSValue -> JSValue) :
  Settings.setup parseInt [("auth", JStr "test:test")] Settings.initial =
  {| Settings.host := JUndefined; Settings.port := JNum 8123;
     Settings.auth := JStr "test:test"; Settings.ssl := JUndefined;
     Settings.http := Some Settings.Http |}.
Proof. reflexivity. Qed.

(** The texts of the experiments are JSON texts, and the empty text is
    none. *)
Example texts_are_json :
  is_Some (JSON.parse page_1_2_text) /\ is_Some (JSON.parse page_empty_text) /\
  is_Some (JSON.parse not_a_page_text) /\ is_Some (JSON.parse "null") /\
  JSON.parse "" = None.
Proof. repeat split; vm_compute; eauto. Qed.

(** [query_all] on a module on which [setup] was never called: one call
    of the single-page operation, no request. *)
Example run_query_all_before_setup :
  let run :=
    query_all_promise None "127.0.0.1" 8123 (recording (refusing TypeError))
      (fun _ => "{}") parse_page some_query "ns" 3 ([], tt) in
  fetched (fst run) = [(1, Throws TypeError)] /\
  fst (world (fst run)) = [] /\
  snd run = Some (Normal (Rejected (JError TypeError))).
Proof. repeat split; reflexivity. Qed.

(** ** The further properties on concrete inputs *)

(** A 201 whose [location] ends with a ['/']: the insertion succeeds
    and the node id is the empty string. *)
Lemma node_id_follows_last_slash_witness :
  let response :=
    {| statusCode := 201;
       headers := {[ "location" := "http://127.0.0.1:8123/nodes/" ]};
       statusMessage := Some "Created";
       chunks := [] |} in
  insert_node_callback (ResponseEvent response) = Normal (Invoked JNull (JStr "")) /\
  insert_node_promise (ResponseEvent response) = Normal (Resolved (JStr "")).
Proof.
  intros response.
  apply (proj2 (node_id_follows_last_slash response "http://127.0.0.1:8123/nodes/"
                  eq_refl eq_refl) "http://127.0.0.1:8123/nodes").
  reflexivity.
Defined.

(** One page, then a failure: the second reply decides. *)
Lemma aggregation_outcome_witness :
  exists k : nat,
    let f := func scripted_osdf some_query in
    let rs := transcript f some_query "ns" page_then_failure 1 k in
    let r := fst (f some_query "ns" (1 + Z.of_nat k)
                    (world_after f some_query "ns" page_then_failure 1 k)) in
    (k < 5)%nat /\
    Forall (fun r => continues r = true) rs /\
    continues r = false /\
    fetched (fst (make_query_all_callback_helper some_query "ns" scripted_osdf 5
                    page_then_failure)) =
      zip (seqZ 1 (Z.of_nat (S k))) (rs ++ [r]) /\
    Normal (Invoked (JStr "Internal Server Error") JNull) =
      match r with
      | Raises e | Throws e => Throw e
      | CallsBack err page_result =>
          if truthy err then Normal (Invoked err JNull)
          else match page_result with
               | None => Throw TypeError
               | Some _ => Normal (Invoked JNull (final (concat (results_of <$> rs))))
               end
      end /\
    snd (make_query_all_promise_helper some_query "ns" scripted_osdf 5 page_then_failure) =
      Some
        match r with
        | Throws e =>
            match k with
            | O => Normal (Rejected (JError e))
            | S _ => Throw e
            end
        | Raises e => Throw e
        | CallsBack err page_result =>
            if truthy err then Normal (Rejected err)
            else match page_result with
                 | None => Throw TypeError
                 | Some _ => Normal (Resolved (final (concat (results_of <$> rs))))
                 end
        end.
Proof.
  apply (aggregation_outcome scripted_osdf some_query "ns" page_then_failure 5
           (Normal (Invoked (JStr "Internal Server Error") JNull))).
  reflexivity.
Defined.

(** The same three pages from a server that counts right and from one
    that does not, asked with different queries. *)
Lemma aggregation_reads_results_only_witness :
  snd (make_query_all_callback_helper some_query "ns" scripted_osdf 3 three_pages) =
  snd (make_query_all_callback_helper (OQL "q") "other" scripted_osdf 3
         three_pages_miscounted) /\
  snd (make_query_all_promise_helper some_query "ns" scripted_osdf 3 three_pages) =
  snd (make_query_all_promise_helper (OQL "q") "other" scripted_osdf 3
         three_pages_miscounted).
Proof.
  apply (aggregation_reads_results_only scripted_osdf scripted_osdf some_query (OQL "q")
           "ns" "other" three_pages three_pages_miscounted 3).
  repeat constructor.
Defined.

(** After a page with two results: a body that is JSON and no page, and
    a page without results.  And a module on which [setup] was never
    called. *)
Lemma query_all_ends_on_response_witness :
  (snd (query_all_callback None "127.0.0.1" 8123 serving (fun _ => "{}") parse_page
          some_query "ns" 2 [ok page_1_2_text; ok not_a_page_text])
     = Some (Throw TypeError) /\
   snd (query_all_promise None "127.0.0.1" 8123 serving (fun _ => "{}") parse_page
          some_query "ns" 2 [ok page_1_2_text; ok not_a_page_text])
     = Some (Throw TypeError)) /\
  (snd (query_all_callback None "127.0.0.1" 8123 serving (fun _ => "{}") parse_page
          some_query "ns" 2 [ok page_1_2_text; ok page_empty_text])
     = Some (Normal (Invoked JNull (final [JNum 1; JNum 2]))) /\
   snd (query_all_promise None "127.0.0.1" 8123 serving (fun _ => "{}") parse_page
          some_query "ns" 2 [ok page_1_2_text; ok page_empty_text])
     = Some (Normal (Resolved (final [JNum 1; JNum 2])))) /\
  (snd (query_all_callback None "127.0.0.1" 8123 (refusing TypeError) (fun _ => "{}")
          parse_page some_query "ns" 2 tt)
     = Some (Throw TypeError) /\
   snd (query_all_promise None "127.0.0.1" 8123 (refusing TypeError) (fun _ => "{}")
          parse_page some_query "ns" 2 tt)
     = Some (Normal (Rejected (JError TypeError)))).
Proof.
  split; [|split].
  - apply (query_all_ends_on_response None "127.0.0.1" 8123 serving (fun _ => "{}")
             parse_page some_query "ns" [ok page_1_2_text; ok not_a_page_text] 1 2).
    + repeat constructor.
    + lia.
  - apply (query_all_ends_on_response None "127.0.0.1" 8123 serving (fun _ => "{}")
             parse_page some_query "ns" [ok page_1_2_text; ok page_empty_text] 1 2).
    + repeat constructor.
    + lia.
    + reflexivity.
  - apply (query_all_ends_on_response None "127.0.0.1" 8123 (refusing TypeError)
             (fun _ => "{}") parse_page some_query "ns" tt 0 2).
    + constructor.
    + lia.
Defined.
